(** * Wallets API: order pricing, catalog listing, upload intake, diagnostics

    A shallow embedding of [main.py] and [schemas.py].  Python floats are
    IEEE-754 binary64 numbers ([spec_float] at precision 53), dictionaries
    read from or written to the document store are finite maps from field
    names to values, and every handler runs in a small state-and-exception
    monad over the process-wide [db] handle. *)

From Stdlib Require Import ZArith NArith Floats.SpecFloat Ascii String Strings.Byte.
From stdpp Require Import base option list gmap strings fin_maps.

Open Scope Z_scope.
Open Scope string_scope.

(** ** Python floats *)

Module PyFloat.

Definition prec : Z := 53.
Definition emax : Z := 1024.

Abbreviation pyfloat := spec_float.

Definition fadd : pyfloat -> pyfloat -> pyfloat := SFadd prec emax.
Definition fmul : pyfloat -> pyfloat -> pyfloat := SFmul prec emax.
Definition flt : pyfloat -> pyfloat -> bool := SFltb.
Definition fle : pyfloat -> pyfloat -> bool := SFleb.

(** The double nearest to the integer [z] (ties to even); an infinity when
    [z] lies beyond the largest double. *)
Definition of_Z (z : Z) : pyfloat := binary_normalize prec emax z 0 false.

(** The double nearest to the fraction [n / d], as a decimal literal or
    [strtod] yields it.  The division core of [SFdiv] takes integer
    mantissas of any size. *)
Definition nearest_ratio (s : bool) (n d : positive) : pyfloat :=
  SFdiv prec emax (S754_finite s n 0) (S754_finite false d 0).

(** The literal [n / 10^k], e.g. [decimal 5 3] for [0.005]. *)
Definition decimal (n k : positive) : pyfloat :=
  nearest_ratio false n (Pos.pow 10 k).

(** [a / b] rounded to the nearest integer, ties to even ([0 < b]). *)
Definition rne_div (a b : Z) : Z :=
  let q := a / b in
  match 2 * (a mod b) ?= b with
  | Lt => q
  | Gt => q + 1
  | Eq => if Z.even q then q else q + 1
  end.

(** The number of hundredths nearest to the exact value [m * 2^e]. *)
Definition hundredths (m : positive) (e : Z) : Z :=
  match e with
  | Zneg p => rne_div (Zpos m * 100) (Z.pow_pos 2 p)
  | _ => Zpos m * 100 * 2 ^ e
  end.

(** [round(x, 2)] on a float: the exact value of [x] is rounded half-even to
    two decimals, and the double nearest to that decimal is returned; zeros,
    infinities and NaN round to themselves, and the sign survives a result
    of zero. *)
Definition round2 (x : pyfloat) : pyfloat :=
  match x with
  | S754_finite s m e =>
      match hundredths m e with
      | Zpos n => nearest_ratio s n 100
      | _ => S754_zero s
      end
  | _ => x
  end.

Definition zero : pyfloat := S754_zero false.   (* 0.0 *)
Definition one : pyfloat := of_Z 1.             (* 1.0 *)
Definition five : pyfloat := of_Z 5.            (* 5.0 *)
Definition seventy_five : pyfloat := of_Z 75.   (* 75, compared as a float *)

End PyFloat.
Export PyFloat.

(** ** Exceptions *)

(** One location of a pydantic validation error, e.g. [items.0.quantity]. *)
Inductive loc_item :=
| LField (name : string)
| LIndex (i : nat).

Inductive exn :=
| InvalidId (oid : string)                  (* bson.errors.InvalidId *)
| TypeError
| ValueError
| OverflowError
| ValidationError (model : string) (errors : list (list loc_item))
| StoreError                                (* a data-store operation failed *)
| ReadError                                 (* reading the uploaded file failed *)
| HTTPException (status_code : Z) (detail : string).

Inductive result (A : Type) :=
| Ok (a : A)
| Raise (e : exn).
Arguments Ok {A} a.
Arguments Raise {A} e.

(** ** Values, documents and object identifiers *)

(** [bson.ObjectId]: the identifier's bytes, kept as their lowercase
    hexadecimal digits, which is what [str] of an identifier returns (24
    digits for the twelve bytes of a generated identifier). *)
Record ObjectId := mk_ObjectId { oid_hex : string }.

#[global] Instance ObjectId_eq_dec : EqDecision ObjectId.
Proof. solve_decision. Defined.

Definition is_hex (c : ascii) : bool :=
  let n := N_of_ascii c in
  ((48 <=? n) && (n <=? 57) || (97 <=? n) && (n <=? 102)
   || (65 <=? n) && (n <=? 70))%N.

Definition to_lower (c : ascii) : ascii :=
  let n := N_of_ascii c in
  if ((65 <=? n) && (n <=? 90))%N then ascii_of_N (n + 32) else c.

Fixpoint string_forallb (p : ascii -> bool) (s : string) : bool :=
  match s with
  | EmptyString => true
  | String c s' => p c && string_forallb p s'
  end.

Fixpoint string_map (f : ascii -> ascii) (s : string) : string :=
  match s with
  | EmptyString => EmptyString
  | String c s' => String (f c) (string_map f s')
  end.

(** ASCII whitespace: space, tab, line feed, vertical tab, form feed and
    carriage return. *)
Definition is_space (c : ascii) : bool :=
  let n := N_of_ascii c in
  ((n =? 32) || (9 <=? n) && (n <=? 13))%N.

(** [bytes.fromhex(s)], the bytes given by their lowercase hexadecimal
    digits: whitespace before a byte is skipped, a byte is two hexadecimal
    digits next to each other, and anything else is an error. *)
Fixpoint fromhex (s : string) : option string :=
  match s with
  | EmptyString => Some EmptyString
  | String c s' =>
      if is_space c then fromhex s'
      else if is_hex c then
        match s' with
        | String c' s'' =>
            if is_hex c'
            then String (to_lower c) <$> (String (to_lower c') <$> fromhex s'')
            else None
        | EmptyString => None
        end
      else None
  end.

(** [ObjectId(s)] for a string: a string of 24 characters that
    [bytes.fromhex] can read is accepted, anything else raises [InvalidId].
    Whitespace among the 24 characters is skipped by [bytes.fromhex], so the
    identifier then has fewer than twelve bytes. *)
Definition ObjectId_of_str (s : string) : result ObjectId :=
  if (String.length s =? 24)%nat
  then match fromhex s with
       | Some digits => Ok (mk_ObjectId digits)
       | None => Raise (InvalidId s)
       end
  else Raise (InvalidId s).

#[local] Set Warnings "-register-all".

Inductive value :=
| VNone
| VBool (b : bool)
| VInt (z : Z)
| VFloat (f : pyfloat)
| VStr (s : string)
| VOid (o : ObjectId)
| VList (l : list value)
| VDict (d : gmap string value).

Abbreviation document := (gmap string value).

Definition VOptStr (o : option string) : value :=
  match o with
  | Some s => VStr s
  | None => VNone
  end.

(** ** The pydantic models of [schemas.py] and the request models of [main.py] *)

Module WalletStyle.
Record t := {
  title : string;
  description : option string;
  price : pyfloat;              (* Field(..., ge=0) *)
  images : list string;
  finishes : list string;
  in_stock : bool }.

Definition model_dump (w : t) : document :=
  <["title" := VStr (title w)]>
  (<["description" := VOptStr (description w)]>
  (<["price" := VFloat (price w)]>
  (<["images" := VList (VStr <$> images w)]>
  (<["finishes" := VList (VStr <$> finishes w)]>
  (<["in_stock" := VBool (in_stock w)]> ∅))))).
End WalletStyle.

Module Upload.
Record t := {
  filename : string;
  content_type : string;
  size : Z;
  data_b64 : string }.

Definition model_dump (u : t) : document :=
  <["filename" := VStr (filename u)]>
  (<["content_type" := VStr (content_type u)]>
  (<["size" := VInt (size u)]>
  (<["data_b64" := VStr (data_b64 u)]> ∅))).
End Upload.

Module CartItem.
Record t := {
  product_id : string;
  quantity : Z;                 (* Field(1, ge=1) *)
  finish : option string;
  engraving_text : option string;
  upload_id : option string }.

Definition model_dump (c : t) : document :=
  <["product_id" := VStr (product_id c)]>
  (<["quantity" := VInt (quantity c)]>
  (<["finish" := VOptStr (finish c)]>
  (<["engraving_text" := VOptStr (engraving_text c)]>
  (<["upload_id" := VOptStr (upload_id c)]> ∅)))).
End CartItem.

Module Customer.
Record t := {
  name : string;
  email : string;
  address_line1 : string;
  address_line2 : option string;
  city : string;
  state : string;
  postal_code : string;
  country : string }.

Definition model_dump (c : t) : document :=
  <["name" := VStr (name c)]>
  (<["email" := VStr (email c)]>
  (<["address_line1" := VStr (address_line1 c)]>
  (<["address_line2" := VOptStr (address_line2 c)]>
  (<["city" := VStr (city c)]>
  (<["state" := VStr (state c)]>
  (<["postal_code" := VStr (postal_code c)]>
  (<["country" := VStr (country c)]> ∅))))))).
End Customer.

Module Order.
Record t := {
  items : list CartItem.t;
  customer : Customer.t;
  subtotal : pyfloat;           (* Field(..., ge=0) *)
  shipping : pyfloat;           (* Field(..., ge=0) *)
  total : pyfloat;              (* Field(..., ge=0) *)
  status : string;
  notes : option string }.

Definition model_dump (o : t) : document :=
  <["items" := VList ((fun c => VDict (CartItem.model_dump c)) <$> items o)]>
  (<["customer" := VDict (Customer.model_dump (customer o))]>
  (<["subtotal" := VFloat (subtotal o)]>
  (<["shipping" := VFloat (shipping o)]>
  (<["total" := VFloat (total o)]>
  (<["status" := VStr (status o)]>
  (<["notes" := VOptStr (notes o)]> ∅)))))).
End Order.

(** A pydantic model instance, as handed to [create_document]. *)
Inductive model :=
| MWalletStyle (w : WalletStyle.t)
| MUpload (u : Upload.t)
| MOrder (o : Order.t).

Definition model_dump (m : model) : document :=
  match m with
  | MWalletStyle w => WalletStyle.model_dump w
  | MUpload u => Upload.model_dump u
  | MOrder o => Order.model_dump o
  end.

Module CartItemIn.
Record t := {
  product_id : string;
  quantity : Z;                 (* int = 1, no constraint *)
  finish : option string;
  engraving_text : option string;
  upload_id : option string }.
End CartItemIn.

Module CustomerIn.
Record t := {
  name : string;
  email : string;
  address_line1 : string;
  address_line2 : option string;
  city : string;
  state : string;
  postal_code : string;
  country : string }.
End CustomerIn.

Module CheckoutIn.
Record t := {
  items : list CartItemIn.t;
  customer : CustomerIn.t }.
End CheckoutIn.

(** ** The document store and the handler monad *)

(** Modelled from the spec: the [db] handle that [database.py] exports, when
    it is not [None].  Persisted state is a set of logical collections, each
    a mapping from generated identifier to a structured record (kept here in
    insertion order); the store can be unreachable, and it generates the
    identifiers. *)
Record database := {
  reachable : bool;
  collections : gmap string (list (ObjectId * document));
  next_id : N }.

(** State-and-exception computations: a step reads and updates the state
    and either returns or raises; what was updated before an exception stays
    updated. *)
Definition St (S A : Type) : Type := S -> result A * S.

(** A handler runs over the process-wide [db], which is [None] when no
    database is configured. *)
Abbreviation M := (St (option database)).

Definition ret {S A} (a : A) : St S A := fun s => (Ok a, s).

Definition raise {S A} (e : exn) : St S A := fun s => (Raise e, s).

Definition lift {S A} (r : result A) : St S A := fun s => (r, s).

Definition bind {S A B} (c : St S A) (k : A -> St S B) : St S B :=
  fun s =>
    match c s with
    | (Ok a, s') => k a s'
    | (Raise e, s') => (Raise e, s')
    end.

(** [try: c  except Exception as e: h e] *)
Definition try_except {S A} (c : St S A) (h : exn -> St S A) : St S A :=
  fun s =>
    match c s with
    | (Ok a, s') => (Ok a, s')
    | (Raise e, s') => h e s'
    end.

(** A handler body with a local dictionary of type [R] that it updates in
    place: [on_db] runs a store operation, [update] assigns to the
    dictionary, and [with_local] runs the body from an initial dictionary and
    returns the dictionary as the body left it. *)
Definition on_db {R A} (c : M A) : St (option database * R) A :=
  fun s => let '(a, d) := c s.1 in (a, (d, s.2)).

Definition update {S R} (f : R -> R) : St (S * R) unit :=
  fun s => (Ok tt, (s.1, f s.2)).

Definition with_local {S R} (r0 : R) (c : St (S * R) unit) : St S R :=
  fun s =>
    match c (s, r0) with
    | (Ok _, (s', r)) => (Ok r, s')
    | (Raise e, (s', _)) => (Raise e, s')
    end.

Notation "'let*' x ':=' c 'in' k" := (bind c (fun x => k))
  (at level 10, x pattern, c at level 100, k at level 200).

(** [for x in xs: acc = body x acc], stopping at the first exception. *)
Fixpoint for_each {S A B} (body : A -> B -> St S B) (xs : list A) (acc : B)
    : St S B :=
  match xs with
  | [] => ret acc
  | x :: xs' => let* acc' := body x acc in for_each body xs' acc'
  end.

(** The identifier generator counts: an identifier is the 24 lowercase
    hexadecimal digits of the counter. *)
Definition hex_digit (n : N) : ascii :=
  nth (N.to_nat n) (list_ascii_of_string "0123456789abcdef") "0"%char.

Fixpoint hex_digits (k : nat) (n : N) (acc : string) : string :=
  match k with
  | O => acc
  | S k' => hex_digits k' (n / 16)%N (String (hex_digit (n mod 16)%N) acc)
  end.

Definition collection (d : database) (name : string) : list (ObjectId * document) :=
  default [] (collections d !! name).

(** A stored record as a read returns it: the record's fields together with
    its identifier under ["_id"]. *)
Definition with_id (r : ObjectId * document) : document :=
  <["_id" := VOid r.1]> r.2.

(** [db is not None] *)
Definition db_is_not_None : M bool :=
  fun s => (Ok (bool_decide (is_Some s)), s).

(** [db[name]]: subscripting [None] raises [TypeError]; on a handle the
    collection is not contacted yet. *)
Definition db_getitem (name : string) : M string :=
  fun s =>
    match s with
    | None => (Raise TypeError, s)
    | Some _ => (Ok name, s)
    end.

(** pymongo's [find_one({"_id": oid})]: the first record of the collection
    under that identifier, or [None]. *)
Definition find_one (name : string) (oid : ObjectId) : M (option document) :=
  fun s =>
    match s with
    | None => (Raise TypeError, s)
    | Some d =>
        if reachable d
        then (Ok ((fun p => with_id p.2)
                    <$> list_find (fun r => r.1 = oid) (collection d name)), s)
        else (Raise StoreError, s)
    end.

(** pymongo's [list_collection_names()]. *)
Definition list_collection_names : M (list string) :=
  fun s =>
    match s with
    | None => (Raise TypeError, s)
    | Some d =>
        if reachable d
        then (Ok ((map_to_list (collections d)).*1), s)
        else (Raise StoreError, s)
    end.

(** Modelled from the spec: [get_documents] of [database.py], which is not
    among the sources.  The store offers generic read operations against
    named collections and returns plain structured records; each collection
    maps generated identifiers to records, and a record read back carries its
    internal identifier.  A store that is absent or does not answer makes the
    operation fail. *)
Definition get_documents (name : string) : M (list document) :=
  fun s =>
    match s with
    | None => (Raise StoreError, s)
    | Some d =>
        if reachable d
        then (Ok (with_id <$> collection d name), s)
        else (Raise StoreError, s)
    end.

(** Modelled from the spec: the write that [create_document] of
    [database.py] performs.  Each collection maps generated identifiers to
    records: the record is filed last in its collection under the next
    identifier of the generator, and no other collection changes. *)
Definition insert_one (d : database) (name : string) (record : document)
    : ObjectId * database :=
  let oid := mk_ObjectId (hex_digits 24 (next_id d) "") in
  (oid,
   {| reachable := reachable d;
      collections :=
        <[name := (collection d name ++ [(oid, record)])%list]> (collections d);
      next_id := N.succ (next_id d) |}).

(** Modelled from the spec: [create_document] of [database.py], which is not
    among the sources.  The store offers generic create operations against
    named collections and accepts plain structured records; the record is
    filed under a newly generated identifier, which is returned as a string.
    A store that is absent or does not answer makes the operation fail and
    writes nothing. *)
Definition create_document (name : string) (data : model) : M string :=
  fun s =>
    match s with
    | None => (Raise StoreError, s)
    | Some d =>
        if reachable d
        then
          let '(oid, d') := insert_one d name (model_dump data) in
          (Ok (oid_hex oid), Some d')
        else (Raise StoreError, s)
    end.

(** ** Base64 (RFC 4648), as [base64.b64encode] produces it *)

Module Base64.

Definition alphabet : list ascii :=
  list_ascii_of_string
    "ABCDEFGHIJKLMNOPQRSTUVWXYZabcdefghijklmnopqrstuvwxyz0123456789+/".

Definition pad : ascii := "="%char.

Definition char_of (n : N) : ascii := nth (N.to_nat n) alphabet pad.

Definition index_of (c : ascii) : option N :=
  (fun p => N.of_nat p.1) <$> list_find (fun x => x = c) alphabet.

(** Three bytes make a 24-bit group that is cut into four sextets; a last
    group of one or two bytes is filled with zero bits and padded. *)
Fixpoint encode (bs : list byte) : list ascii :=
  match bs with
  | [] => []
  | [b0] =>
      let n := (Byte.to_N b0 * 65536)%N in
      [char_of (n / 262144); char_of ((n / 4096) mod 64); pad; pad]%N
  | [b0; b1] =>
      let n := (Byte.to_N b0 * 65536 + Byte.to_N b1 * 256)%N in
      [char_of (n / 262144); char_of ((n / 4096) mod 64);
       char_of ((n / 64) mod 64); pad]%N
  | b0 :: b1 :: b2 :: rest =>
      let n := (Byte.to_N b0 * 65536 + Byte.to_N b1 * 256 + Byte.to_N b2)%N in
      (char_of (n / 262144) :: char_of ((n / 4096) mod 64)
       :: char_of ((n / 64) mod 64) :: char_of (n mod 64) :: encode rest)%N
  end.

(** Strict decoding: every group has four characters of the alphabet, and
    padding may only end the last group. *)
Fixpoint decode (cs : list ascii) : option (list byte) :=
  match cs with
  | [] => Some []
  | c0 :: c1 :: c2 :: c3 :: rest =>
      i0 ← index_of c0;
      i1 ← index_of c1;
      if Ascii.eqb c3 pad then
        match rest with
        | [] =>
            if Ascii.eqb c2 pad then
              let n := (i0 * 262144 + i1 * 4096)%N in
              b0 ← Byte.of_N (n / 65536);
              Some [b0]
            else
              i2 ← index_of c2;
              let n := (i0 * 262144 + i1 * 4096 + i2 * 64)%N in
              b0 ← Byte.of_N (n / 65536);
              b1 ← Byte.of_N ((n / 256) mod 256);
              Some [b0; b1]
        | _ => None
        end
      else
        i2 ← index_of c2;
        i3 ← index_of c3;
        let n := (i0 * 262144 + i1 * 4096 + i2 * 64 + i3)%N in
        b0 ← Byte.of_N (n / 65536);
        b1 ← Byte.of_N ((n / 256) mod 256);
        b2 ← Byte.of_N (n mod 256);
        bs ← decode rest;
        Some (b0 :: b1 :: b2 :: bs)
  | _ => None
  end.

(** [base64.b64encode(content).decode("utf-8")] *)
Definition b64encode (content : list byte) : string :=
  string_of_list_ascii (encode content).

Definition b64decode (s : string) : option (list byte) :=
  decode (list_ascii_of_string s).

End Base64.

(** ** Request and response shapes of [main.py] *)

(** One entry of [items_full]: the dictionary built for a resolved line. *)
Module ItemFull.
Record t := {
  product_id : string;
  title : value;                  (* prod.get("title") *)
  price_each : pyfloat;
  quantity : Z;
  finish : option string;
  engraving_text : option string;
  upload_id : option string }.
End ItemFull.

(** [{"order_id": ..., "status": ..., "amount": ...}] *)
Module CheckoutOut.
Record t := {
  order_id : string;
  status : string;
  amount : pyfloat }.
End CheckoutOut.

(** The parts of starlette's [UploadFile] that [upload_art] reads. *)
Module UploadFile.
Record t := {
  filename : option string;
  content_type : option string;
  read : result (list byte) }.
End UploadFile.

(** What [list_styles] returns: [{"styles": styles}], or a [JSONResponse]
    with the given status code and [{"error": error}]. *)
Inductive styles_response :=
| Styles (styles : list document)
| JSONResponse (status_code : Z) (error : string).

(** The dictionary returned by [test_database]. *)
Module Diagnostics.
Record t := {
  backend : string;
  database : string;
  database_url : option string;
  database_name : option string;
  connection_status : string;
  collections : list string }.

Definition set_database (v : string) (r : t) : t :=
  {| backend := backend r; database := v; database_url := database_url r;
     database_name := database_name r;
     connection_status := connection_status r; collections := collections r |}.

Definition set_database_url (v : string) (r : t) : t :=
  {| backend := backend r; database := database r; database_url := Some v;
     database_name := database_name r;
     connection_status := connection_status r; collections := collections r |}.

Definition set_database_name (v : string) (r : t) : t :=
  {| backend := backend r; database := database r;
     database_url := database_url r; database_name := Some v;
     connection_status := connection_status r; collections := collections r |}.

Definition set_collections (v : list string) (r : t) : t :=
  {| backend := backend r; database := database r;
     database_url := database_url r; database_name := database_name r;
     connection_status := connection_status r; collections := v |}.
End Diagnostics.

(** ** Validation performed by the pydantic constructors *)

(** [Field(..., ge=0)] on a float: a NaN does not satisfy the bound. *)
Definition ge0_errors (field : string) (x : pyfloat) : list (list loc_item) :=
  if fle zero x then [] else [[LField field]].

(** An entry of [items_full] validated as a [CartItem]: the keys [title] and
    [price_each] are not fields of the model and are dropped; [quantity] must
    be at least 1. *)
Definition CartItem_errors (i : nat) (it : ItemFull.t) : list (list loc_item) :=
  if (1 <=? ItemFull.quantity it)%Z then []
  else [[LField "items"; LIndex i; LField "quantity"]].

Definition CartItem_of (it : ItemFull.t) : CartItem.t :=
  {| CartItem.product_id := ItemFull.product_id it;
     CartItem.quantity := ItemFull.quantity it;
     CartItem.finish := ItemFull.finish it;
     CartItem.engraving_text := ItemFull.engraving_text it;
     CartItem.upload_id := ItemFull.upload_id it |}.

(** [payload.customer.model_dump()] validated as a [Customer]: both models
    declare the same fields with the same types. *)
Definition Customer_of (c : CustomerIn.t) : Customer.t :=
  {| Customer.name := CustomerIn.name c;
     Customer.email := CustomerIn.email c;
     Customer.address_line1 := CustomerIn.address_line1 c;
     Customer.address_line2 := CustomerIn.address_line2 c;
     Customer.city := CustomerIn.city c;
     Customer.state := CustomerIn.state c;
     Customer.postal_code := CustomerIn.postal_code c;
     Customer.country := CustomerIn.country c |}.

(** [Order(items=..., customer=..., subtotal=..., shipping=..., total=...,
    status=...)]: all violated constraints are reported together. *)
Definition Order_validate (items : list ItemFull.t) (customer : CustomerIn.t)
    (subtotal shipping total : pyfloat) (status : string) : result Order.t :=
  match (concat (imap CartItem_errors items) ++ ge0_errors "subtotal" subtotal
         ++ ge0_errors "shipping" shipping ++ ge0_errors "total" total)%list with
  | [] => Ok {| Order.items := CartItem_of <$> items;
                Order.customer := Customer_of customer;
                Order.subtotal := subtotal;
                Order.shipping := shipping;
                Order.total := total;
                Order.status := status;
                Order.notes := None |}
  | errors => Raise (ValidationError "Order" errors)
  end.

(** [Upload(filename=..., content_type=..., size=..., data_b64=...)]:
    [filename] must be a string, and an upload may come without one. *)
Definition Upload_validate (filename : option string) (content_type : string)
    (size : Z) (data_b64 : string) : result Upload.t :=
  match filename with
  | Some f => Ok {| Upload.filename := f; Upload.content_type := content_type;
                    Upload.size := size; Upload.data_b64 := data_b64 |}
  | None => Raise (ValidationError "Upload" [[LField "filename"]])
  end.

(** ** Built-in conversions *)

(** An [int] operand of a float operation: the nearest double, and
    [OverflowError] beyond the largest one. *)
Definition float_of_int (z : Z) : result pyfloat :=
  match of_Z z with
  | S754_infinity _ => Raise OverflowError
  | f => Ok f
  end.

(** [d.get(key, dflt)] *)
Definition dict_get (d : document) (key : string) (dflt : value) : value :=
  default dflt (d !! key).

(** [not prod] for the result of [find_one]: [None] and the empty dictionary
    are false values. *)
Definition py_not (prod : option document) : bool :=
  match prod with
  | None => true
  | Some d => (size d =? 0)%nat
  end.

(** [x or dflt] for an optional string: [None] and the empty string are
    false values. *)
Definition str_or (x : option string) (dflt : string) : string :=
  match x with
  | Some EmptyString | None => dflt
  | Some s => s
  end.

(** Whether [os.getenv(key)] is a true value. *)
Definition getenv_true (environ : gmap string string) (key : string) : bool :=
  match environ !! key with
  | Some EmptyString | None => false
  | Some _ => true
  end.

(** Splits the conjunctions of a goal, leaving defined predicates folded. *)
Ltac split_conj := repeat match goal with |- _ /\ _ => split end.

(** ** Sample data *)

Module Sample.

Definition customer : CustomerIn.t :=
  {| CustomerIn.name := "Ada Lovelace";
     CustomerIn.email := "ada@example.org";
     CustomerIn.address_line1 := "12 Analytical Row";
     CustomerIn.address_line2 := None;
     CustomerIn.city := "London";
     CustomerIn.state := "LND";
     CustomerIn.postal_code := "W1";
     CustomerIn.country := "GB" |}.

Definition wallet_id : string := "507f1f77bcf86cd799439011".
Definition other_id : string := "507f1f77bcf86cd799439012".

(** A catalog record with a title and the given price. *)
Definition wallet (price : value) : document :=
  <["title" := VStr "Carbon Fiber Slim Wallet"]> (<["price" := price]> ∅).

(** A catalog record without a price field. *)
Definition unpriced_wallet : document :=
  <["title" := VStr "Carbon Fiber Slim Wallet"]> ∅.

(** A reachable store whose catalog holds the one record [prod]. *)
Definition shop (prod : document) : database :=
  {| reachable := true;
     collections := {[ "walletstyle" := [(mk_ObjectId wallet_id, prod)] ]};
     next_id := 7 |}.

Definition empty_shop : database :=
  {| reachable := true; collections := ∅; next_id := 0 |}.

Definition unreachable_shop : database :=
  {| reachable := false; collections := ∅; next_id := 0 |}.

Definition item (product_id : string) (quantity : Z) : CartItemIn.t :=
  {| CartItemIn.product_id := product_id;
     CartItemIn.quantity := quantity;
     CartItemIn.finish := Some "Gunmetal";
     CartItemIn.engraving_text := None;
     CartItemIn.upload_id := None |}.

Definition cart (items : list CartItemIn.t) : CheckoutIn.t :=
  {| CheckoutIn.items := items; CheckoutIn.customer := customer |}.

Definition artwork : UploadFile.t :=
  {| UploadFile.filename := Some "logo.png";
     UploadFile.content_type := Some "image/png";
     UploadFile.read := Ok (list_byte_of_string "PNG!") |}.

(** Instances of the three text built-ins for running the handlers on the
    data above, none of which reaches them with a numeric string or a value
    to print. *)
Definition float_of_str (_ : string) : option pyfloat := None.
Definition str_exn (_ : exn) : string := "error".
Definition str_other (_ : value) : string := "".

End Sample.

(** ** The static endpoints of [main.py] *)

(** [root]: the liveness answer [{"status": "ok", "service": "wallets-api"}]. *)
Definition root : list (string * string) :=
  [("status", "ok"); ("service", "wallets-api")].

(** [get_schema_info]: the list under ["collections"]. *)
Definition get_schema_info : list string := ["walletstyle"; "upload"; "order"].

(** ** The handlers of [main.py] *)

Section Handlers.

(** Three built-ins are text processing that the handlers only pass along:
    [float(s)] on a string ([None] where Python raises [ValueError]), [str(e)]
    on an exception, and [str(v)] on a value that is neither a string nor an
    [ObjectId]. *)
Variable float_of_str : string -> option pyfloat.
Variable str_exn : exn -> string.
Variable str_other : value -> string.

(** [float(v)] *)
Definition py_float (v : value) : result pyfloat :=
  match v with
  | VFloat f => Ok f
  | VInt z => float_of_int z
  | VBool b => Ok (if b then one else zero)
  | VStr s =>
      match float_of_str s with
      | Some f => Ok f
      | None => Raise ValueError
      end
  | _ => Raise TypeError
  end.

(** [str(v)] *)
Definition py_str (v : value) : string :=
  match v with
  | VOid o => oid_hex o
  | VStr s => s
  | _ => str_other v
  end.

Definition carbon_fiber : WalletStyle.t :=
  {| WalletStyle.title := "Carbon Fiber Slim Wallet";
     WalletStyle.description :=
       Some "Durable carbon fiber plates with RFID blocking.";
     WalletStyle.price := of_Z 59;
     WalletStyle.images :=
       ["https://images.unsplash.com/photo-1585386959984-a4155223162d?auto=format&fit=crop&w=1200&q=60"];
     WalletStyle.finishes := ["Matte Black"; "Gunmetal"; "Silver"];
     WalletStyle.in_stock := true |}.

Definition aluminum : WalletStyle.t :=
  {| WalletStyle.title := "Aluminum Slim Wallet";
     WalletStyle.description :=
       Some "Lightweight anodized aluminum construction.";
     WalletStyle.price := of_Z 49;
     WalletStyle.images :=
       ["https://images.unsplash.com/photo-1512496015851-a90fb38ba796?auto=format&fit=crop&w=1200&q=60"];
     WalletStyle.finishes := ["Matte Black"; "Navy"; "Forest"];
     WalletStyle.in_stock := true |}.

Definition titanium : WalletStyle.t :=
  {| WalletStyle.title := "Titanium Slim Wallet";
     WalletStyle.description := Some "Premium titanium with sleek edges.";
     WalletStyle.price := of_Z 89;
     WalletStyle.images :=
       ["https://images.unsplash.com/photo-1562184552-1e86cae0b2d9?auto=format&fit=crop&w=1200&q=60"];
     WalletStyle.finishes := ["Raw"; "Stonewash"; "Black Ti"];
     WalletStyle.in_stock := true |}.

(** The [seeds] list of [list_styles]; every price satisfies [ge=0]. *)
Definition seeds : list WalletStyle.t := [carbon_fiber; aluminum; titanium].

(** [if "_id" in s: s["id"] = str(s.pop("_id"))] *)
Definition project_id (s : document) : document :=
  match s !! "_id" with
  | Some v => <["id" := VStr (py_str v)]> (delete "_id" s)
  | None => s
  end.

Definition list_styles : M styles_response :=
  try_except
    (let* styles := get_documents "walletstyle" in
     let* styles :=
       match styles with
       | [] =>
           let* _ :=
             for_each
               (fun s (_ : unit) =>
                  let* _ := create_document "walletstyle" (MWalletStyle s) in
                  ret tt)
               seeds tt in
           get_documents "walletstyle"
       | _ => ret styles
       end in
     ret (Styles (project_id <$> styles)))
    (fun e => ret (JSONResponse 500 (str_exn e))).

(** Returns the [upload_id] of [{"upload_id": upload_id}]. *)
Definition upload_art (file : UploadFile.t) : M string :=
  try_except
    (let* content := lift (UploadFile.read file) in
     let data_b64 := Base64.b64encode content in
     let* doc :=
       lift (Upload_validate
               (UploadFile.filename file)
               (str_or (UploadFile.content_type file) "application/octet-stream")
               (Z.of_nat (length content))
               data_b64) in
     let* upload_id := create_document "upload" (MUpload doc) in
     ret upload_id)
    (fun e => raise (HTTPException 400 (str_exn e))).

(** The body of [for item in payload.items], on the pair
    [(items_full, subtotal)]. *)
Definition checkout_item (item : CartItemIn.t) (acc : list ItemFull.t * pyfloat)
    : M (list ItemFull.t * pyfloat) :=
  let '(items_full, subtotal) := acc in
  let* walletstyle := db_getitem "walletstyle" in
  let* oid := lift (ObjectId_of_str (CartItemIn.product_id item)) in
  let* prod := find_one walletstyle oid in
  if py_not prod then
    raise (HTTPException 404
             ("Product not found: " ++ CartItemIn.product_id item))
  else
    let prod := default ∅ prod in
    let* unit_price := lift (py_float (dict_get prod "price" (VInt 0))) in
    let* quantity := lift (float_of_int (CartItemIn.quantity item)) in
    let price := fmul unit_price quantity in
    let subtotal := fadd subtotal price in
    let* price_each := lift (py_float (dict_get prod "price" (VInt 0))) in
    ret ((items_full ++
           [ {| ItemFull.product_id := CartItemIn.product_id item;
                ItemFull.title := dict_get prod "title" VNone;
                ItemFull.price_each := price_each;
                ItemFull.quantity := CartItemIn.quantity item;
                ItemFull.finish := CartItemIn.finish item;
                ItemFull.engraving_text := CartItemIn.engraving_text item;
                ItemFull.upload_id := CartItemIn.upload_id item |} ])%list,
         subtotal).

(** The [try] block of [checkout]. *)
Definition checkout_try (payload : CheckoutIn.t) : M CheckoutOut.t :=
  let* acc := for_each checkout_item (CheckoutIn.items payload) ([], zero) in
  let '(items_full, subtotal) := acc in
  let shipping := if flt subtotal seventy_five then five else zero in
  let total := round2 (fadd subtotal shipping) in
  let* order_doc :=
    lift (Order_validate items_full (CheckoutIn.customer payload)
            (round2 subtotal) shipping total "pending") in
  let* order_id := create_document "order" (MOrder order_doc) in
  ret {| CheckoutOut.order_id := order_id;
         CheckoutOut.status := "pending";
         CheckoutOut.amount := total |}.

(** [except HTTPException: raise] and
    [except Exception as e: raise HTTPException(status_code=400, detail=str(e))] *)
Definition checkout_except (e : exn) : M CheckoutOut.t :=
  match e with
  | HTTPException _ _ => raise e
  | _ => raise (HTTPException 400 (str_exn e))
  end.

Definition checkout (payload : CheckoutIn.t) : M CheckoutOut.t :=
  try_except (checkout_try payload) checkout_except.

Definition test_database (environ : gmap string string) : M Diagnostics.t :=
  with_local
    {| Diagnostics.backend := "✅ Running";
       Diagnostics.database := "❌ Not Available";
       Diagnostics.database_url := None;
       Diagnostics.database_name := None;
       Diagnostics.connection_status := "Not Connected";
       Diagnostics.collections := [] |}
    (try_except
       (let* available := on_db db_is_not_None in
        if available : bool then
          let* _ := update (Diagnostics.set_database "✅ Connected") in
          let* _ :=
            update (Diagnostics.set_database_url
                      (if getenv_true environ "DATABASE_URL"
                       then "✅ Set" else "❌ Not Set")) in
          let* _ :=
            update (Diagnostics.set_database_name
                      (if getenv_true environ "DATABASE_NAME"
                       then "✅ Set" else "❌ Not Set")) in
          try_except
            (let* names := on_db list_collection_names in
             update (Diagnostics.set_collections names))
            (fun _ => ret tt)
        else ret tt)
       (fun e =>
          update (Diagnostics.set_database
                    ("❌ Error: " ++ substring 0 80 (str_exn e))))).

(** ** What a checkout computes, stated without the handler's control flow *)

(** The catalog record a product id refers to. *)
Definition catalog_entry (d : database) (product_id : string) : option document :=
  match ObjectId_of_str product_id with
  | Ok oid =>
      (fun p => with_id p.2)
        <$> list_find (fun r => r.1 = oid) (collection d "walletstyle")
  | Raise _ => None
  end.

(** The catalog unit price of a record; a record without a price counts 0. *)
Definition unit_price (prod : document) : option pyfloat :=
  match py_float (dict_get prod "price" (VInt 0)) with
  | Ok p => Some p
  | Raise _ => None
  end.

(** Catalog unit price times quantity, for one cart item. *)
Definition line_price (d : database) (item : CartItemIn.t) : option pyfloat :=
  prod ← catalog_entry d (CartItemIn.product_id item);
  p ← unit_price prod;
  match float_of_int (CartItemIn.quantity item) with
  | Ok q => Some (fmul p q)
  | Raise _ => None
  end.

(** The raw subtotal: the line prices summed in cart order from [0.0]. *)
Definition raw_subtotal (d : database) (items : list CartItemIn.t)
    : option pyfloat :=
  foldl fadd zero <$> mapM (line_price d) items.

(** The line recorded for a cart item. *)
Definition resolved_line (d : database) (item : CartItemIn.t)
    : option ItemFull.t :=
  prod ← catalog_entry d (CartItemIn.product_id item);
  p ← unit_price prod;
  Some {| ItemFull.product_id := CartItemIn.product_id item;
          ItemFull.title := dict_get prod "title" VNone;
          ItemFull.price_each := p;
          ItemFull.quantity := CartItemIn.quantity item;
          ItemFull.finish := CartItemIn.finish item;
          ItemFull.engraving_text := CartItemIn.engraving_text item;
          ItemFull.upload_id := CartItemIn.upload_id item |}.

(** The shipping charge for a raw subtotal. *)
Definition shipping_for (raw : pyfloat) : pyfloat :=
  if flt raw seventy_five then five else zero.

(** The store after one more record was filed in a collection. *)
Definition stored (d : database) (name : string) (r : ObjectId * document)
    (d' : database) : Prop :=
  collection d' name = (collection d name ++ [r])%list
  /\ forall other, other <> name -> collection d' other = collection d other.

(** The order record written for the given cart lines and amounts. *)
Definition pending_order (items : list CartItemIn.t) (customer : CustomerIn.t)
    (subtotal shipping total : pyfloat) : Order.t :=
  {| Order.items :=
       (fun item =>
          {| CartItem.product_id := CartItemIn.product_id item;
             CartItem.quantity := CartItemIn.quantity item;
             CartItem.finish := CartItemIn.finish item;
             CartItem.engraving_text := CartItemIn.engraving_text item;
             CartItem.upload_id := CartItemIn.upload_id item |}) <$> items;
     Order.customer := Customer_of customer;
     Order.subtotal := subtotal;
     Order.shipping := shipping;
     Order.total := total;
     Order.status := "pending";
     Order.notes := None |}.

(** ** Vocabulary for the handlers' outcomes *)

(** Whether an exception is an [HTTPException]. *)
Definition is_http (e : exn) : bool :=
  match e with
  | HTTPException _ _ => true
  | _ => false
  end.

(** Whether the store handle is present and answers. *)
Definition available (s : option database) : bool :=
  match s with
  | Some d => reachable d
  | None => false
  end.

(** The records of a collection, for a store handle that may be absent. *)
Definition records (s : option database) (name : string)
    : list (ObjectId * document) :=
  match s with
  | Some d => collection d name
  | None => []
  end.

(** The store after the seeding loop of [list_styles]. *)
Definition seeded (d : database) : database :=
  foldl (fun d s => (insert_one d "walletstyle" (WalletStyle.model_dump s)).2)
    d seeds.

(** What the pricing of a cart item reads from the request. *)
Definition priced_fields (item : CartItemIn.t) : string * Z :=
  (CartItemIn.product_id item, CartItemIn.quantity item).

(** ** Monad and store lemmas *)

Lemma with_id_not_empty r : py_not (Some (with_id r)) = false.
Proof.
  unfold py_not, with_id.
  apply Nat.eqb_neq. intros Hsize.
  apply map_size_empty_iff in Hsize.
  apply (f_equal (fun m : document => m !! "_id")) in Hsize.
  rewrite lookup_insert_eq, lookup_empty in Hsize. discriminate.
Qed.

Lemma find_one_catalog d product_id oid :
  ObjectId_of_str product_id = Ok oid ->
  reachable d = true ->
  find_one "walletstyle" oid (Some d)
  = (Ok (catalog_entry d product_id), Some d).
Proof.
  intros Hoid Hup. unfold find_one, catalog_entry. now rewrite Hup, Hoid.
Qed.

Lemma catalog_entry_not_empty d product_id prod :
  catalog_entry d product_id = Some prod -> py_not (Some prod) = false.
Proof.
  unfold catalog_entry. destruct (ObjectId_of_str product_id); [|discriminate].
  destruct (list_find _ _) as [[i r]|]; [|discriminate].
  intros [= <-]. apply with_id_not_empty.
Qed.

(** The loop body on a reachable store, case by case. *)
Lemma checkout_item_run d item items_full subtotal :
  reachable d = true ->
  checkout_item item (items_full, subtotal) (Some d)
  = (match ObjectId_of_str (CartItemIn.product_id item) with
     | Raise e => Raise e
     | Ok _ =>
         match catalog_entry d (CartItemIn.product_id item) with
         | None =>
             Raise (HTTPException 404
                      ("Product not found: " ++ CartItemIn.product_id item))
         | Some prod =>
             match py_float (dict_get prod "price" (VInt 0)) with
             | Raise e => Raise e
             | Ok p =>
                 match float_of_int (CartItemIn.quantity item) with
                 | Raise e => Raise e
                 | Ok q =>
                     Ok ((items_full ++
                            [ {| ItemFull.product_id := CartItemIn.product_id item;
                                 ItemFull.title := dict_get prod "title" VNone;
                                 ItemFull.price_each := p;
                                 ItemFull.quantity := CartItemIn.quantity item;
                                 ItemFull.finish := CartItemIn.finish item;
                                 ItemFull.engraving_text :=
                                   CartItemIn.engraving_text item;
                                 ItemFull.upload_id := CartItemIn.upload_id item |} ])%list,
                         fadd subtotal (fmul p q))
                 end
             end
         end
     end, Some d).
Proof.
  intros Hup. unfold checkout_item, bind, lift, db_getitem, raise, ret.
  destruct (ObjectId_of_str (CartItemIn.product_id item)) as [oid|e] eqn:Hoid;
    [|reflexivity].
  rewrite (find_one_catalog _ _ _ Hoid Hup).
  destruct (catalog_entry d (CartItemIn.product_id item)) as [prod|] eqn:Hprod;
    [|reflexivity].
  rewrite (catalog_entry_not_empty _ _ _ Hprod). simpl.
  destruct (py_float (dict_get prod "price" (VInt 0))); [|reflexivity].
  destruct (float_of_int (CartItemIn.quantity item)); reflexivity.
Qed.

(** The loop body never writes to the store. *)
Lemma checkout_item_state item acc s r s' :
  checkout_item item acc s = (r, s') -> s' = s.
Proof.
  destruct acc as [items_full subtotal].
  unfold checkout_item, bind, lift, db_getitem, find_one, raise, ret.
  destruct s as [d|]; [|now intros [= _ <-]].
  destruct (ObjectId_of_str _); [|now intros [= _ <-]].
  destruct (reachable d); [|now intros [= _ <-]].
  destruct (py_not _); [now intros [= _ <-]|].
  destruct (py_float _); [|now intros [= _ <-]].
  destruct (float_of_int _); now intros [= _ <-].
Qed.

Lemma for_each_checkout_state items acc s r s' :
  for_each checkout_item items acc s = (r, s') -> s' = s.
Proof.
  revert acc s. induction items as [|item items IH]; intros acc s; simpl.
  - now intros [= _ <-].
  - unfold bind.
    destruct (checkout_item item acc s) as [[acc'|e] s1] eqn:Hitem;
      apply checkout_item_state in Hitem; subst s1.
    + apply IH.
    + now intros [= _ <-].
Qed.

Lemma line_price_eq d item prod p q :
  catalog_entry d (CartItemIn.product_id item) = Some prod ->
  py_float (dict_get prod "price" (VInt 0)) = Ok p ->
  float_of_int (CartItemIn.quantity item) = Ok q ->
  line_price d item = Some (fmul p q).
Proof.
  intros Hprod Hp Hq. unfold line_price, unit_price.
  rewrite Hprod. simpl. rewrite Hp. simpl. now rewrite Hq.
Qed.

Lemma resolved_line_eq d item prod p :
  catalog_entry d (CartItemIn.product_id item) = Some prod ->
  py_float (dict_get prod "price" (VInt 0)) = Ok p ->
  resolved_line d item
  = Some {| ItemFull.product_id := CartItemIn.product_id item;
            ItemFull.title := dict_get prod "title" VNone;
            ItemFull.price_each := p;
            ItemFull.quantity := CartItemIn.quantity item;
            ItemFull.finish := CartItemIn.finish item;
            ItemFull.engraving_text := CartItemIn.engraving_text item;
            ItemFull.upload_id := CartItemIn.upload_id item |}.
Proof.
  intros Hprod Hp. unfold resolved_line, unit_price.
  rewrite Hprod. simpl. now rewrite Hp.
Qed.

(** What the loop body does to an item that has a line price. *)
Lemma line_price_inv d item price :
  line_price d item = Some price ->
  exists oid prod p q,
    ObjectId_of_str (CartItemIn.product_id item) = Ok oid
    /\ catalog_entry d (CartItemIn.product_id item) = Some prod
    /\ py_float (dict_get prod "price" (VInt 0)) = Ok p
    /\ float_of_int (CartItemIn.quantity item) = Ok q
    /\ price = fmul p q.
Proof.
  unfold line_price, unit_price.
  destruct (catalog_entry d (CartItemIn.product_id item)) as [prod|] eqn:Hprod;
    [|discriminate].
  simpl.
  destruct (py_float (dict_get prod "price" (VInt 0))) as [p|] eqn:Hp;
    [|discriminate].
  simpl.
  destruct (float_of_int (CartItemIn.quantity item)) as [q|] eqn:Hq;
    [|discriminate].
  intros [= <-].
  unfold catalog_entry in Hprod.
  destruct (ObjectId_of_str (CartItemIn.product_id item)) as [oid|] eqn:Hoid;
    [|discriminate].
  exists oid, prod, p, q. repeat split; assumption.
Qed.

(** A loop that completes has priced and recorded every item in cart order. *)
Lemma for_each_checkout_ok d items items_full subtotal items_full' subtotal' s' :
  reachable d = true ->
  for_each checkout_item items (items_full, subtotal) (Some d)
  = (Ok (items_full', subtotal'), s') ->
  exists prices lines,
    mapM (line_price d) items = Some prices
    /\ mapM (resolved_line d) items = Some lines
    /\ items_full' = (items_full ++ lines)%list
    /\ subtotal' = foldl fadd subtotal prices.
Proof.
  intros Hup. revert items_full subtotal.
  induction items as [|item items IH]; intros items_full subtotal;
    cbn [for_each].
  - intros [= <- <- _]. exists [], []. now rewrite app_nil_r.
  - unfold bind at 1. rewrite (checkout_item_run _ _ _ _ Hup).
    destruct (ObjectId_of_str (CartItemIn.product_id item)); [|discriminate].
    destruct (catalog_entry d (CartItemIn.product_id item)) as [prod|] eqn:Hprod;
      [|discriminate].
    destruct (py_float (dict_get prod "price" (VInt 0))) as [p|] eqn:Hp;
      [|discriminate].
    destruct (float_of_int (CartItemIn.quantity item)) as [q|] eqn:Hq;
      [|discriminate].
    intros Hloop. apply IH in Hloop as (prices & lines & Hprices & Hlines & -> & ->).
    cbn [mapM].
    rewrite (line_price_eq _ _ _ _ _ Hprod Hp Hq), Hprices.
    rewrite (resolved_line_eq _ _ _ _ Hprod Hp), Hlines.
    eexists _, _. repeat split. now rewrite <- app_assoc.
Qed.

(** Conversely, when every line has a price the loop completes. *)
Lemma for_each_checkout_priced d items items_full subtotal prices :
  reachable d = true ->
  mapM (line_price d) items = Some prices ->
  exists lines,
    mapM (resolved_line d) items = Some lines
    /\ for_each checkout_item items (items_full, subtotal) (Some d)
       = (Ok ((items_full ++ lines)%list, foldl fadd subtotal prices), Some d).
Proof.
  intros Hup. revert items_full subtotal prices.
  induction items as [|item items IH]; intros items_full subtotal prices;
    cbn [for_each mapM].
  - intros [= <-]. exists []. now rewrite app_nil_r.
  - destruct (line_price d item) as [price|] eqn:Hprice; [|discriminate].
    destruct (mapM (line_price d) items) as [prices'|] eqn:Hprices;
      [|discriminate].
    intros [= <-].
    destruct (line_price_inv _ _ _ Hprice) as (oid & prod & p & q & Hoid & Hprod & Hp & Hq & ->).
    rewrite (resolved_line_eq _ _ _ _ Hprod Hp).
    unfold bind at 1. rewrite (checkout_item_run _ _ _ _ Hup), Hoid, Hprod, Hp, Hq.
    match goal with
    | |- context [for_each checkout_item items (?a, ?b) _] =>
        destruct (IH a b prices' eq_refl) as (lines & Hlines & Hloop)
    end.
    rewrite Hlines, Hloop. eexists. split; [reflexivity|].
    now rewrite <- app_assoc.
Qed.

Lemma insert_one_stored d name record :
  stored d name ((insert_one d name record).1, record) (insert_one d name record).2.
Proof.
  unfold stored, insert_one, collection; simpl. split.
  - now rewrite lookup_insert_eq.
  - intros other Hother. now rewrite lookup_insert_ne.
Qed.

Lemma create_document_ok name data s id s' :
  create_document name data s = (Ok id, s') ->
  exists d,
    s = Some d /\ reachable d = true
    /\ id = oid_hex (insert_one d name (model_dump data)).1
    /\ s' = Some (insert_one d name (model_dump data)).2.
Proof.
  unfold create_document. destruct s as [d|]; [|discriminate].
  destruct (reachable d) eqn:Hup; [|discriminate].
  destruct (insert_one d name (model_dump data)) as [oid d'] eqn:Hins.
  intros [= <- <-]. exists d. now rewrite Hins.
Qed.

Lemma create_document_run name data d :
  reachable d = true ->
  create_document name data (Some d)
  = (Ok (oid_hex (insert_one d name (model_dump data)).1),
     Some (insert_one d name (model_dump data)).2).
Proof.
  intros Hup. unfold create_document. rewrite Hup.
  now destruct (insert_one d name (model_dump data)).
Qed.

Lemma create_document_raise name data s e s' :
  create_document name data s = (Raise e, s') -> s' = s.
Proof.
  unfold create_document. destruct s as [d|]; [|now intros [= _ <-]].
  destruct (reachable d); [|now intros [= _ <-]].
  now destruct (insert_one d name (model_dump data)).
Qed.

(** A validated order carries the amounts it was built from. *)
Lemma Order_validate_ok items customer subtotal shipping total status o :
  Order_validate items customer subtotal shipping total status = Ok o ->
  o = {| Order.items := CartItem_of <$> items;
         Order.customer := Customer_of customer;
         Order.subtotal := subtotal;
         Order.shipping := shipping;
         Order.total := total;
         Order.status := status;
         Order.notes := None |}
  /\ Forall (fun it => 1 <= ItemFull.quantity it) items.
Proof.
  unfold Order_validate.
  destruct (_ ++ _)%list as [|err errs] eqn:Herrs; [|discriminate].
  intros [= <-]. split; [reflexivity|].
  apply app_eq_nil in Herrs as [Hitems _].
  apply Forall_lookup_2. intros i it Hit.
  assert (Hnil : CartItem_errors i it = []).
  { apply (concat_nil_Forall (imap CartItem_errors items)) in Hitems.
    rewrite Forall_lookup in Hitems. apply (Hitems i).
    now rewrite list_lookup_imap, Hit. }
  unfold CartItem_errors in Hnil.
  destruct (1 <=? ItemFull.quantity it)%Z eqn:Hq; [lia|discriminate].
Qed.

(** The state of a checkout that raised is the state it started from. *)
Lemma checkout_try_raise payload s e s' :
  checkout_try payload s = (Raise e, s') -> s' = s.
Proof.
  unfold checkout_try, bind at 1.
  destruct (for_each _ _ _ s) as [[[items_full subtotal]|e0] s1] eqn:Hloop;
    apply for_each_checkout_state in Hloop; subst s1; [|now intros [= _ <-]].
  unfold bind at 1, lift.
  destruct (Order_validate _ _ _ _ _ _); [|now intros [= _ <-]].
  unfold bind, ret.
  destruct (create_document _ _ s) as [[id|e1] s1] eqn:Hcreate; [discriminate|].
  apply create_document_raise in Hcreate. now intros [= _ <-].
Qed.

Lemma checkout_raise payload s e s' :
  checkout payload s = (Raise e, s') -> s' = s.
Proof.
  unfold checkout, try_except.
  destruct (checkout_try payload s) as [[out|e0] s1] eqn:Htry; [discriminate|].
  apply checkout_try_raise in Htry. subst s1.
  unfold checkout_except, raise. destruct e0; now intros [= _ <-].
Qed.

Lemma checkout_ok_try payload s out s' :
  checkout payload s = (Ok out, s') -> checkout_try payload s = (Ok out, s').
Proof.
  unfold checkout, try_except.
  destruct (checkout_try payload s) as [[out0|e0] s1]; [easy|].
  unfold checkout_except, raise. destruct e0; discriminate.
Qed.

(** Everything a successful checkout did. *)
Lemma checkout_ok payload s out s' :
  checkout payload s = (Ok out, s') ->
  exists d raw lines order,
    s = Some d /\ reachable d = true
    /\ raw_subtotal d (CheckoutIn.items payload) = Some raw
    /\ mapM (resolved_line d) (CheckoutIn.items payload) = Some lines
    /\ Order_validate lines (CheckoutIn.customer payload) (round2 raw)
         (shipping_for raw) (round2 (fadd raw (shipping_for raw))) "pending"
       = Ok order
    /\ s' = Some (insert_one d "order" (Order.model_dump order)).2
    /\ out = {| CheckoutOut.order_id :=
                  oid_hex (insert_one d "order" (Order.model_dump order)).1;
                CheckoutOut.status := "pending";
                CheckoutOut.amount := round2 (fadd raw (shipping_for raw)) |}.
Proof.
  intros Hok. apply checkout_ok_try in Hok. revert Hok.
  unfold checkout_try, bind at 1.
  destruct (for_each _ _ _ s) as [[[items_full subtotal]|e0] s1] eqn:Hloop;
    [|discriminate].
  pose proof (for_each_checkout_state _ _ _ _ _ Hloop) as ->.
  unfold bind at 1, lift.
  destruct (Order_validate _ _ _ _ _ _) as [order|] eqn:Horder; [|discriminate].
  unfold bind, ret.
  destruct (create_document _ _ s) as [[id|e1] s1] eqn:Hcreate; [|discriminate].
  intros [= <- <-].
  apply create_document_ok in Hcreate as (d & -> & Hup & -> & ->).
  apply (for_each_checkout_ok _ _ _ _ _ _ _ Hup) in Hloop
    as (prices & lines & Hprices & Hlines & -> & ->).
  exists d, (foldl fadd zero prices), lines, order.
  unfold raw_subtotal. rewrite Hprices. repeat split; assumption.
Qed.

(** A checkout on a reachable store whose lines all have a price and whose
    order passes validation succeeds. *)
Lemma checkout_run payload d raw lines order :
  reachable d = true ->
  raw_subtotal d (CheckoutIn.items payload) = Some raw ->
  mapM (resolved_line d) (CheckoutIn.items payload) = Some lines ->
  Order_validate lines (CheckoutIn.customer payload) (round2 raw)
    (shipping_for raw) (round2 (fadd raw (shipping_for raw))) "pending"
  = Ok order ->
  checkout payload (Some d)
  = (Ok {| CheckoutOut.order_id :=
             oid_hex (insert_one d "order" (Order.model_dump order)).1;
           CheckoutOut.status := "pending";
           CheckoutOut.amount := round2 (fadd raw (shipping_for raw)) |},
     Some (insert_one d "order" (Order.model_dump order)).2).
Proof.
  intros Hup Hraw Hlines Horder. unfold raw_subtotal in Hraw.
  destruct (mapM (line_price d) _) as [prices|] eqn:Hprices; [|discriminate].
  injection Hraw as <-.
  destruct (for_each_checkout_priced d _ [] zero prices Hup Hprices)
    as (lines' & Hlines' & Hloop).
  rewrite Hlines in Hlines'. injection Hlines' as <-.
  unfold checkout, try_except, checkout_try, bind at 1. rewrite Hloop.
  unfold bind at 1, lift. fold (shipping_for (foldl fadd zero prices)).
  simpl app. rewrite Horder.
  unfold bind, ret.
  now rewrite (create_document_run _ _ _ Hup).
Qed.

(** ** Float comparison and conversion lemmas *)

Lemma SFcompare_antisym x y c :
  SFcompare x y = Some c -> SFcompare y x = Some (CompOpp c).
Proof.
  destruct x as [sx|sx| |sx mx ex], y as [sy|sy| |sy my ey]; simpl;
    try discriminate;
    try (destruct sx; intros [= <-]; reflexivity);
    try (destruct sy; intros [= <-]; reflexivity);
    try (destruct sx, sy; intros [= <-]; reflexivity).
  destruct sx, sy; intros [= <-]; try reflexivity;
    rewrite (Z.compare_antisym ex ey);
    destruct (ex ?= ey)%Z; simpl; try reflexivity;
    rewrite (Pos.compare_cont_antisym mx my Eq); simpl;
    now rewrite ?CompOpp_involutive.
Qed.

(** [a <= b] excludes [b < a]. *)
Lemma fle_not_flt a b : fle a b = true -> flt b a = false.
Proof.
  unfold fle, flt, SFleb, SFltb.
  destruct (SFcompare a b) as [c|] eqn:Hc; [|discriminate].
  rewrite (SFcompare_antisym _ _ _ Hc). now destruct c.
Qed.

Lemma shr_1_nonneg mrs : 0 <= shr_m mrs -> 0 <= shr_m (shr_1 mrs).
Proof.
  destruct mrs as [m r s]. simpl.
  destruct m as [|p|p]; [easy| |lia].
  destruct p; simpl; lia.
Qed.

Lemma iter_pos_shr_1_nonneg p mrs :
  0 <= shr_m mrs -> 0 <= shr_m (SpecFloat.iter_pos shr_1 p mrs).
Proof.
  revert mrs. induction p as [p IH|p IH|]; intros mrs Hm; simpl.
  - apply IH, IH, shr_1_nonneg, Hm.
  - apply IH, IH, Hm.
  - apply shr_1_nonneg, Hm.
Qed.

Lemma shr_fexp_nonneg m e l :
  0 <= m -> 0 <= shr_m (shr_fexp prec emax m e l).1.
Proof.
  intros Hm. unfold shr_fexp, shr.
  assert (Hrec : 0 <= shr_m (shr_record_of_loc m l))
    by (destruct l as [|[]]; exact Hm).
  destruct (fexp prec emax (Zdigits2 m + e) - e); simpl; try exact Hrec.
  now apply iter_pos_shr_1_nonneg.
Qed.

(** Rounding a non-negative mantissa yields a zero, a finite number or an
    infinity of the given sign, never a NaN. *)
Lemma binary_round_aux_sign s m e l :
  0 <= m ->
  match binary_round_aux prec emax s m e l with
  | S754_zero s' | S754_finite s' _ _ | S754_infinity s' => s' = s
  | S754_nan => False
  end.
Proof.
  intros Hm. unfold binary_round_aux.
  pose proof (shr_fexp_nonneg m e l Hm) as H1.
  destruct (shr_fexp prec emax m e l) as [mrs1 e1]. simpl in H1.
  assert (H2 : 0 <= round_nearest_even (shr_m mrs1) (loc_of_shr_record mrs1)).
  { unfold round_nearest_even.
    destruct (loc_of_shr_record mrs1) as [|[]]; try lia.
    destruct (Z.even (shr_m mrs1)); lia. }
  pose proof (shr_fexp_nonneg _ e1 loc_Exact H2) as H3.
  destruct (shr_fexp prec emax _ e1 loc_Exact) as [mrs2 e2]. simpl in H3.
  destruct (shr_m mrs2) as [|p|p]; [reflexivity| |lia].
  now destruct (e2 <=? emax - prec)%Z.
Qed.

(** An [int] that converts to a float converts to a zero or a finite number
    of its own sign. *)
Lemma float_of_int_sign z q :
  float_of_int z = Ok q ->
  q = S754_zero (z <? 0)%Z \/ exists m e, q = S754_finite (z <? 0)%Z m e.
Proof.
  unfold float_of_int, of_Z, binary_normalize.
  destruct z as [|p|p]; [intros [= <-]; now left| |];
    unfold binary_round; destruct (shl_align p 0 _) as [mz ez].
  - pose proof (binary_round_aux_sign false (Z.pos mz) ez loc_Exact
                  ltac:(lia)) as Hsign.
    destruct (binary_round_aux prec emax false (Z.pos mz) ez loc_Exact)
      as [s'|s'| |s' m' e']; try easy; subst s'; intros [= <-]; eauto.
  - pose proof (binary_round_aux_sign true (Z.pos mz) ez loc_Exact
                  ltac:(lia)) as Hsign.
    destruct (binary_round_aux prec emax true (Z.pos mz) ez loc_Exact)
      as [s'|s'| |s' m' e']; try easy; subst s'; intros [= <-]; eauto.
Qed.

(** [0.0] times a converted [int] is a zero. *)
Lemma fmul_zero_float_of_int z q :
  float_of_int z = Ok q -> fmul zero q = S754_zero (z <? 0)%Z.
Proof.
  intros Hq.
  destruct (float_of_int_sign z q Hq) as [->|(m & e & ->)];
    now destruct (z <? 0)%Z.
Qed.

Lemma fadd_signed_zero x sgn :
  x <> S754_zero true -> fadd x (S754_zero sgn) = x.
Proof.
  destruct x as [[]| | |], sgn; intros Hx; try reflexivity; now destruct Hx.
Qed.

(** The only error of an [int] operand is [OverflowError]. *)
Lemma float_of_int_overflow z e :
  float_of_int z = Raise e -> e = OverflowError.
Proof.
  unfold float_of_int. destruct (of_Z z); (discriminate || now intros [= <-]).
Qed.

(** *** Integers of 64 bits convert to a float *)

Lemma shr_1_bound mrs : 0 <= shr_m mrs -> 0 <= shr_m (shr_1 mrs) <= shr_m mrs.
Proof.
  destruct mrs as [m r s]. simpl.
  destruct m as [|p|p]; [easy| |lia].
  destruct p; simpl; lia.
Qed.

Lemma iter_pos_shr_1_bound p mrs :
  0 <= shr_m mrs ->
  0 <= shr_m (SpecFloat.iter_pos shr_1 p mrs) <= shr_m mrs.
Proof.
  revert mrs. induction p as [p IH|p IH|]; intros mrs Hm; simpl.
  - pose proof (shr_1_bound mrs Hm) as H1.
    pose proof (IH _ (proj1 H1)) as H2.
    pose proof (IH _ (proj1 H2)) as H3. lia.
  - pose proof (IH _ Hm) as H2.
    pose proof (IH _ (proj1 H2)) as H3. lia.
  - apply shr_1_bound, Hm.
Qed.

Lemma digits2_pos_bound p k :
  0 <= k -> Zpos p < 2 ^ k -> Zpos (digits2_pos p) <= k.
Proof.
  revert k. induction p as [p IH|p IH|]; intros k Hk Hp; simpl.
  - assert (k = Z.succ (k - 1)) as Hs by lia.
    destruct (Z.eq_dec k 0) as [->|Hne]; [simpl in Hp; lia|].
    rewrite Hs, Z.pow_succ_r in Hp by lia.
    specialize (IH (k - 1) ltac:(lia) ltac:(lia)). lia.
  - assert (k = Z.succ (k - 1)) as Hs by lia.
    destruct (Z.eq_dec k 0) as [->|Hne]; [simpl in Hp; lia|].
    rewrite Hs, Z.pow_succ_r in Hp by lia.
    specialize (IH (k - 1) ltac:(lia) ltac:(lia)). lia.
  - destruct (Z.eq_dec k 0) as [->|Hne]; [simpl in Hp; lia|]. lia.
Qed.

Lemma Zdigits2_bound m k : 0 <= k -> 0 <= m < 2 ^ k -> 0 <= Zdigits2 m <= k.
Proof.
  intros Hk [Hm Hlt]. destruct m as [|p|p]; simpl; [lia| |lia].
  pose proof (digits2_pos_bound p k Hk Hlt). lia.
Qed.

(** Aligning a mantissa below [2^k] keeps it below [2^k], and lifts the
    exponent no further than the precision asks. *)
Lemma shr_fexp_bound m e l k :
  0 <= k -> 0 <= m < 2 ^ k ->
  0 <= shr_m (shr_fexp prec emax m e l).1 < 2 ^ k
  /\ (shr_fexp prec emax m e l).2
     <= Z.max e (Z.max (k + e - prec) (3 - emax - prec)).
Proof.
  intros Hk Hm. unfold shr_fexp, shr.
  pose proof (Zdigits2_bound m k Hk Hm) as Hd.
  assert (Hrec : shr_m (shr_record_of_loc m l) = m)
    by (destruct l as [|[]]; reflexivity).
  unfold fexp, emin, prec, emax in *.
  destruct (Z.max (Zdigits2 m + e - 53) (3 - 1024 - 53) - e) as [|p|p] eqn:Hn;
    simpl; rewrite ?Hrec; try lia.
  pose proof (iter_pos_shr_1_bound p (shr_record_of_loc m l)) as Hb.
  rewrite Hrec in Hb. lia.
Qed.

Lemma round_nearest_even_bound m l :
  0 <= m -> 0 <= round_nearest_even m l <= m + 1.
Proof.
  intros Hm. unfold round_nearest_even.
  destruct l as [|[]]; try lia. destruct (Z.even m); lia.
Qed.

(** Rounding a mantissa below [2^k] at an exponent that leaves room does not
    overflow. *)
Lemma binary_round_aux_finite s m e l k :
  0 <= k -> 0 <= m < 2 ^ k ->
  3 - emax - prec <= e -> e + 2 * k + 2 <= emax - prec ->
  match binary_round_aux prec emax s m e l with
  | S754_infinity _ | S754_nan => False
  | _ => True
  end.
Proof.
  intros Hk Hm He1 He2. unfold binary_round_aux.
  pose proof (shr_fexp_bound m e l k Hk Hm) as [H1 H1e].
  destruct (shr_fexp prec emax m e l) as [mrs1 e1]. simpl in H1, H1e.
  pose proof (round_nearest_even_bound (shr_m mrs1) (loc_of_shr_record mrs1)
                (proj1 H1)) as H2.
  assert (H2' : 0 <= round_nearest_even (shr_m mrs1) (loc_of_shr_record mrs1)
                < 2 ^ (k + 1)).
  { rewrite Z.pow_add_r by lia. lia. }
  pose proof (shr_fexp_bound _ e1 loc_Exact (k + 1) ltac:(lia) H2') as [H3 H3e].
  destruct (shr_fexp prec emax _ e1 loc_Exact) as [mrs2 e2]. simpl in H3, H3e.
  destruct (shr_m mrs2) as [|p|p]; [exact I| |lia].
  unfold prec, emax in *.
  destruct (e2 <=? 1024 - 53)%Z eqn:Hle; [exact I|]. lia.
Qed.

Lemma shift_pos_value k p : Zpos (shift_pos k p) = Zpos p * 2 ^ Zpos k.
Proof.
  rewrite Zpower.shift_pos_correct, Zpower.Zpower_pos_nat.
  rewrite Zpower.Zpower_nat_Z, positive_nat_Z. lia.
Qed.

Lemma binary_round_finite s p :
  Zpos p < 2 ^ 63 ->
  match binary_round prec emax s p 0 with
  | S754_infinity _ | S754_nan => False
  | _ => True
  end.
Proof.
  intros Hp. unfold binary_round, shl_align.
  pose proof (digits2_pos_bound p 63 ltac:(lia) Hp) as Hd.
  unfold fexp, emin, prec, emax.
  destruct (Z.max (Zpos (digits2_pos p) + 0 - 53) (3 - 1024 - 53) - 0)
    as [|k|k] eqn:Hk.
  - apply (binary_round_aux_finite _ _ _ _ 63); unfold prec, emax; lia.
  - apply (binary_round_aux_finite _ _ _ _ 63); unfold prec, emax; lia.
  - assert (Hk' : Zpos k <= 52) by lia.
    apply (binary_round_aux_finite _ _ _ _ 115); unfold prec, emax; try lia.
    change (Pos.iter xO p k) with (shift_pos k p). rewrite shift_pos_value.
    split; [lia|].
    assert (2 ^ Zpos k <= 2 ^ 52) by (apply Z.pow_le_mono_r; lia).
    change (2 ^ 115) with (2 ^ 63 * 2 ^ 52). nia.
Qed.

(** Every [int] of magnitude below [2^63] is an operand of a float
    operation without overflow. *)
Lemma float_of_int_int64 z :
  Z.abs z < 2 ^ 63 -> float_of_int z = Ok (of_Z z).
Proof.
  intros Hz. unfold float_of_int.
  assert (Hfin : match of_Z z with
                 | S754_infinity _ | S754_nan => False
                 | _ => True
                 end).
  { unfold of_Z, binary_normalize.
    destruct z as [|p|p]; [exact I| |]; apply binary_round_finite; exact Hz. }
  now destruct (of_Z z).
Qed.

(** ** Order pricing *)

(** C1: for every checkout that succeeds, with [raw] the sum over the cart
    items of catalog unit price times quantity, the stored order has subtotal
    [round(raw, 2)], shipping 5.0 if [raw < 75] and 0.0 otherwise, and total
    [round(raw + shipping, 2)]: the total is rounded from the unrounded
    subtotal plus shipping, not from the stored, rounded subtotal. *)
Theorem checkout_two_stage_rounding payload s out s' :
  checkout payload s = (Ok out, s') ->
  exists d d' raw oid order,
    s = Some d /\ s' = Some d'
    /\ raw_subtotal d (CheckoutIn.items payload) = Some raw
    /\ stored d "order" (oid, Order.model_dump order) d'
    /\ Order.subtotal order = round2 raw
    /\ Order.shipping order = (if flt raw seventy_five then five else zero)
    /\ Order.total order = round2 (fadd raw (Order.shipping order))
    /\ Order.model_dump order !! "subtotal" = Some (VFloat (Order.subtotal order))
    /\ Order.model_dump order !! "shipping" = Some (VFloat (Order.shipping order))
    /\ Order.model_dump order !! "total" = Some (VFloat (Order.total order))
    /\ CheckoutOut.amount out = Order.total order.
Proof.
  intros Hok.
  apply checkout_ok in Hok
    as (d & raw & lines & order & -> & Hup & Hraw & Hlines & Horder & -> & ->).
  apply Order_validate_ok in Horder as [-> _].
  eexists d, _, raw, _, _.
  split_conj; try eassumption; try apply insert_one_stored; reflexivity.
Qed.

(** C3, as amended: for every cart whose checkout succeeds, the order's total
    equals [round(raw + shipping, 2)] for the raw, unrounded subtotal, with
    shipping 5.0 iff [raw < 75.0] and 0.0 otherwise; it equals
    [round(subtotal_rounded + shipping, 2)] whenever rounding leaves the raw
    subtotal unchanged. *)
Theorem checkout_total_from_raw_subtotal payload s out s' :
  checkout payload s = (Ok out, s') ->
  exists d d' raw oid order,
    s = Some d /\ s' = Some d'
    /\ raw_subtotal d (CheckoutIn.items payload) = Some raw
    /\ stored d "order" (oid, Order.model_dump order) d'
    /\ Order.shipping order = shipping_for raw
    /\ (flt raw seventy_five = true <-> Order.shipping order = five)
    /\ Order.total order = round2 (fadd raw (shipping_for raw))
    /\ (round2 raw = raw ->
        Order.total order
        = round2 (fadd (Order.subtotal order) (Order.shipping order))).
Proof.
  intros Hok.
  apply checkout_ok in Hok
    as (d & raw & lines & order & -> & Hup & Hraw & Hlines & Horder & -> & ->).
  apply Order_validate_ok in Horder as [-> _].
  eexists d, _, raw, _, _.
  split_conj; try eassumption; try apply insert_one_stored; try reflexivity;
    simpl; unfold shipping_for.
  - destruct (flt raw seventy_five); split; easy.
  - now intros ->.
Qed.

(** C4: the free-shipping boundary is exclusive on the low side.  A checkout
    whose raw subtotal is exactly 75.0, or any value from 75 up, ships for
    0.0, and one whose raw subtotal is below 75 ships for 5.0; a cart with one
    item of catalog price 59.0 and quantity 1 gets subtotal 59.0, shipping 5.0
    and total 64.0. *)
Theorem free_shipping_boundary :
  (forall payload s out s',
      checkout payload s = (Ok out, s') ->
      exists d d' raw oid order,
        s = Some d /\ s' = Some d'
        /\ raw_subtotal d (CheckoutIn.items payload) = Some raw
        /\ stored d "order" (oid, Order.model_dump order) d'
        /\ (raw = seventy_five -> Order.shipping order = zero)
        /\ (fle seventy_five raw = true -> Order.shipping order = zero)
        /\ (flt raw seventy_five = true -> Order.shipping order = five))
  /\ (let d := Sample.shop (Sample.wallet (VFloat (of_Z 59))) in
      let items := [Sample.item Sample.wallet_id 1] in
      let order :=
        pending_order items Sample.customer (of_Z 59) five (of_Z 64) in
      raw_subtotal d items = Some (of_Z 59)
      /\ checkout (Sample.cart items) (Some d)
         = (Ok {| CheckoutOut.order_id := "000000000000000000000007";
                  CheckoutOut.status := "pending";
                  CheckoutOut.amount := of_Z 64 |},
            Some (insert_one d "order" (Order.model_dump order)).2)).
Proof.
  split.
  - intros payload s out s' Hok.
    apply checkout_ok in Hok
      as (d & raw & lines & order & -> & Hup & Hraw & Hlines & Horder & -> & ->).
    apply Order_validate_ok in Horder as [-> _].
    eexists d, _, raw, _, _.
    split_conj; try eassumption; try apply insert_one_stored; try reflexivity;
      simpl; unfold shipping_for.
    + now intros ->.
    + intros Hle. now rewrite (fle_not_flt _ _ Hle).
    + now intros ->.
  - split; vm_compute; reflexivity.
Qed.

(** C9: a checkout with an empty items list on a reachable store succeeds,
    creates an order with subtotal 0.0, shipping 5.0 and total 5.0, and
    answers with amount 5.0. *)
Theorem checkout_empty_cart d customer :
  reachable d = true ->
  let order := pending_order [] customer zero five five in
  checkout {| CheckoutIn.items := []; CheckoutIn.customer := customer |} (Some d)
  = (Ok {| CheckoutOut.order_id :=
             oid_hex (insert_one d "order" (Order.model_dump order)).1;
           CheckoutOut.status := "pending";
           CheckoutOut.amount := five |},
     Some (insert_one d "order" (Order.model_dump order)).2)
  /\ stored d "order"
       ((insert_one d "order" (Order.model_dump order)).1, Order.model_dump order)
       (insert_one d "order" (Order.model_dump order)).2
  /\ Order.subtotal order = zero
  /\ Order.shipping order = five
  /\ Order.total order = five.
Proof.
  intros Hup order. split_conj; try reflexivity; [|apply insert_one_stored].
  apply (checkout_run _ d zero [] order Hup); reflexivity.
Qed.

(** ** Rejected checkouts *)

Lemma for_each_app {S A B} (body : A -> B -> St S B) xs ys acc s :
  for_each body (xs ++ ys) acc s
  = bind (for_each body xs acc) (fun acc' => for_each body ys acc') s.
Proof.
  revert acc s. induction xs as [|x xs IH]; intros acc s; [reflexivity|].
  simpl. unfold bind.
  destruct (body x acc s) as [[acc'|e] s1]; [|reflexivity].
  now rewrite IH.
Qed.

Lemma resolved_line_quantity d item line :
  resolved_line d item = Some line ->
  ItemFull.quantity line = CartItemIn.quantity item.
Proof.
  unfold resolved_line.
  destruct (catalog_entry _ _) as [prod|]; [|discriminate]. simpl.
  destruct (unit_price prod); [|discriminate]. simpl. now intros [= <-].
Qed.

(** The error that an order line with a quantity below 1 raises. *)
Lemma Order_validate_quantity lines customer subtotal shipping total status
    i line :
  lines !! i = Some line ->
  ItemFull.quantity line <= 0 ->
  exists errors,
    Order_validate lines customer subtotal shipping total status
    = Raise (ValidationError "Order" errors)
    /\ [LField "items"; LIndex i; LField "quantity"] ∈ errors.
Proof.
  intros Hline Hqty. unfold Order_validate.
  set (errors := (concat (imap CartItem_errors lines) ++ _)%list).
  assert (Hin : [LField "items"; LIndex i; LField "quantity"] ∈ errors).
  { apply elem_of_app. left. apply list_elem_of_In, in_concat.
    exists (CartItem_errors i line). split.
    - apply list_elem_of_In, list_elem_of_lookup. exists i.
      now rewrite list_lookup_imap, Hline.
    - unfold CartItem_errors.
      destruct (1 <=? ItemFull.quantity line)%Z eqn:Hle; [lia|]. now left. }
  destruct errors as [|err errs]; [now apply elem_of_nil in Hin|].
  now exists (err :: errs).
Qed.


(** The loop body on an item whose catalog record has no price. *)
Lemma checkout_item_unpriced d item prod items_full subtotal :
  reachable d = true ->
  catalog_entry d (CartItemIn.product_id item) = Some prod ->
  prod !! "price" = None ->
  checkout_item item (items_full, subtotal) (Some d)
  = (match float_of_int (CartItemIn.quantity item) with
     | Ok q =>
         Ok ((items_full ++
                [ {| ItemFull.product_id := CartItemIn.product_id item;
                     ItemFull.title := dict_get prod "title" VNone;
                     ItemFull.price_each := zero;
                     ItemFull.quantity := CartItemIn.quantity item;
                     ItemFull.finish := CartItemIn.finish item;
                     ItemFull.engraving_text := CartItemIn.engraving_text item;
                     ItemFull.upload_id := CartItemIn.upload_id item |} ])%list,
             fadd subtotal (fmul zero q))
     | Raise e => Raise e
     end, Some d).
Proof.
  intros Hup Hprod Hprice.
  assert (Hp : py_float (dict_get prod "price" (VInt 0)) = Ok zero)
    by (unfold dict_get; now rewrite Hprice).
  rewrite (checkout_item_run _ _ _ _ Hup), Hprod, Hp.
  unfold catalog_entry in Hprod.
  now destruct (ObjectId_of_str (CartItemIn.product_id item)).
Qed.

(** C10, as amended: when the catalog record of a cart item has no price
    field, the resolved line's unit price is 0.0, and whenever the quantity
    converts to a float the line adds a zero to the subtotal.  The checkout
    of a cart that holds such an item alone succeeds, with subtotal 0.0,
    shipping 5.0 and total 5.0, when the quantity is at least 1 and below
    2^63; with a quantity of 0 or less it ends in a client error 400 and
    writes nothing. *)
Theorem checkout_missing_price d item customer prod :
  reachable d = true ->
  catalog_entry d (CartItemIn.product_id item) = Some prod ->
  prod !! "price" = None ->
  let line :=
    {| ItemFull.product_id := CartItemIn.product_id item;
       ItemFull.title := dict_get prod "title" VNone;
       ItemFull.price_each := zero;
       ItemFull.quantity := CartItemIn.quantity item;
       ItemFull.finish := CartItemIn.finish item;
       ItemFull.engraving_text := CartItemIn.engraving_text item;
       ItemFull.upload_id := CartItemIn.upload_id item |} in
  let order := pending_order [item] customer zero five five in
  let payload :=
    {| CheckoutIn.items := [item]; CheckoutIn.customer := customer |} in
  unit_price prod = Some zero
  /\ resolved_line d item = Some line
  /\ (forall q,
        float_of_int (CartItemIn.quantity item) = Ok q ->
        exists sgn,
          line_price d item = Some (S754_zero sgn)
          /\ forall items_full subtotal,
              checkout_item item (items_full, subtotal) (Some d)
              = (Ok ((items_full ++ [line])%list,
                     fadd subtotal (S754_zero sgn)), Some d)
              /\ (subtotal <> S754_zero true ->
                  fadd subtotal (S754_zero sgn) = subtotal))
  /\ (1 <= CartItemIn.quantity item < 2 ^ 63 ->
      checkout payload (Some d)
      = (Ok {| CheckoutOut.order_id :=
                 oid_hex (insert_one d "order" (Order.model_dump order)).1;
               CheckoutOut.status := "pending";
               CheckoutOut.amount := five |},
         Some (insert_one d "order" (Order.model_dump order)).2))
  /\ (CartItemIn.quantity item <= 0 ->
      exists e,
        checkout payload (Some d)
        = (Raise (HTTPException 400 (str_exn e)), Some d)).
Proof.
  intros Hup Hprod Hprice line order payload.
  assert (Hp : py_float (dict_get prod "price" (VInt 0)) = Ok zero)
    by (unfold dict_get; now rewrite Hprice).
  assert (Hres : resolved_line d item = Some line)
    by exact (resolved_line_eq _ _ _ _ Hprod Hp).
  assert (Hline : forall q,
             float_of_int (CartItemIn.quantity item) = Ok q ->
             line_price d item
             = Some (S754_zero (CartItemIn.quantity item <? 0)%Z)).
  { intros q Hq. rewrite (line_price_eq _ _ _ _ _ Hprod Hp Hq).
    now rewrite (fmul_zero_float_of_int _ _ Hq). }
  split_conj.
  - unfold unit_price. now rewrite Hp.
  - exact Hres.
  - intros q Hq. exists (CartItemIn.quantity item <? 0)%Z.
    split; [exact (Hline q Hq)|].
    intros items_full subtotal. split; [|apply fadd_signed_zero].
    rewrite (checkout_item_unpriced _ _ _ _ _ Hup Hprod Hprice), Hq.
    now rewrite (fmul_zero_float_of_int _ _ Hq).
  - intros Hqty.
    assert (Hq : float_of_int (CartItemIn.quantity item)
                 = Ok (of_Z (CartItemIn.quantity item)))
      by (apply float_of_int_int64; lia).
    pose proof (Hline _ Hq) as Hzero.
    replace (CartItemIn.quantity item <? 0)%Z with false in Hzero
      by (symmetry; apply Z.ltb_ge; lia).
    apply (checkout_run payload d zero [line] order Hup); simpl.
    + unfold raw_subtotal. simpl. now rewrite Hzero.
    + now rewrite Hres.
    + unfold Order_validate, CartItem_errors. simpl.
      now rewrite (proj2 (Z.leb_le _ _) (proj1 Hqty)).
  - intros Hqty.
    destruct (float_of_int (CartItemIn.quantity item)) as [q|e] eqn:Hq.
    + pose proof (Hline q eq_refl) as Hzero.
      set (raw := fadd zero (S754_zero (CartItemIn.quantity item <? 0)%Z)).
      destruct (Order_validate_quantity [line] customer
                  (round2 raw) (shipping_for raw)
                  (round2 (fadd raw (shipping_for raw))) "pending"
                  0%nat line eq_refl Hqty) as (errors & Hval & _).
      exists (ValidationError "Order" errors).
      unfold checkout, try_except, checkout_try, bind at 1.
      cbn [payload CheckoutIn.items for_each]. unfold bind at 1.
      rewrite (checkout_item_unpriced _ _ _ _ _ Hup Hprod Hprice), Hq.
      rewrite (fmul_zero_float_of_int _ _ Hq).
      unfold ret, bind at 1, lift. cbn [app].
      fold raw. cbn [payload CheckoutIn.customer]. fold line.
      unfold shipping_for in Hval. now rewrite Hval.
    + pose proof (float_of_int_overflow _ _ Hq) as ->.
      exists OverflowError.
      unfold checkout, try_except, checkout_try, bind at 1.
      cbn [payload CheckoutIn.items for_each]. unfold bind at 1.
      now rewrite (checkout_item_unpriced _ _ _ _ _ Hup Hprod Hprice), Hq.
Qed.

(** The only error of [ObjectId(s)] is [InvalidId] on [s]. *)
Lemma ObjectId_of_str_invalid s e :
  ObjectId_of_str s = Raise e -> e = InvalidId s.
Proof.
  unfold ObjectId_of_str. destruct (_ =? _)%nat; [|now intros [= <-]].
  destruct (fromhex s); [discriminate|now intros [= <-]].
Qed.

(** C2, as amended: if a cart item's product id is absent from the catalog
    of a reachable store, and the items before it all resolve to a line
    price, the checkout aborts: with the not-found error 404 whose message
    names that product id when the product id is a string that [ObjectId]
    accepts, and with the client error 400 carrying the [InvalidId] error
    of that product id when [ObjectId] rejects it; and whenever a checkout
    raises, whatever the error, the store is left as it was, so no order
    record is written. *)
Theorem checkout_missing_product payload :
  (forall d i item prices,
      reachable d = true ->
      CheckoutIn.items payload !! i = Some item ->
      mapM (line_price d) (take i (CheckoutIn.items payload)) = Some prices ->
      catalog_entry d (CartItemIn.product_id item) = None ->
      (forall oid,
          ObjectId_of_str (CartItemIn.product_id item) = Ok oid ->
          checkout payload (Some d)
          = (Raise (HTTPException 404
                      ("Product not found: " ++ CartItemIn.product_id item)),
             Some d))
      /\ (forall e,
            ObjectId_of_str (CartItemIn.product_id item) = Raise e ->
            e = InvalidId (CartItemIn.product_id item)
            /\ checkout payload (Some d)
               = (Raise (HTTPException 400
                           (str_exn (InvalidId (CartItemIn.product_id item)))),
                  Some d)))
  /\ (forall s e s', checkout payload s = (Raise e, s') -> s' = s).
Proof.
  split; [|intros s e s'; apply checkout_raise].
  intros d i item prices Hup Hitem Hprices Hnone.
  destruct (for_each_checkout_priced d _ [] zero prices Hup Hprices)
    as (lines & _ & Hloop).
  assert (Hrun : checkout payload (Some d)
                 = match ObjectId_of_str (CartItemIn.product_id item) with
                   | Ok _ =>
                       (Raise (HTTPException 404
                                 ("Product not found: "
                                  ++ CartItemIn.product_id item)),
                        Some d)
                   | Raise e => checkout_except e (Some d)
                   end).
  { unfold checkout, try_except, checkout_try, bind at 1.
    rewrite <- (take_drop_middle _ _ _ Hitem), for_each_app.
    unfold bind at 1. rewrite Hloop. cbn [for_each].
    unfold bind at 1. rewrite (checkout_item_run _ _ _ _ Hup), Hnone.
    now destruct (ObjectId_of_str (CartItemIn.product_id item)). }
  split.
  - intros oid Hoid. now rewrite Hrun, Hoid.
  - intros e Hoid. pose proof (ObjectId_of_str_invalid _ _ Hoid) as ->.
    split; [reflexivity|]. now rewrite Hrun, Hoid.
Qed.

(** ** Diagnostics *)

(** C8, as amended: the diagnostics endpoint never raises.  For every state
    of the store handle (absent, present but not answering, or answering)
    and every environment it returns its response dictionary and leaves the
    store alone.  Only an absent store shows as a degraded status, the
    database entry ["❌ Not Available"].  A store that is present but does
    not answer is not surfaced: the failure of the collection listing is
    passed over, the response says ["✅ Connected"] with an empty collection
    list, and it is the very response given for a store that answers and
    holds no collection; no response carries the ["❌ Error: ..."] status. *)
Theorem test_database_never_raises environ :
  (forall s,
      exists r,
        test_database environ s = (Ok r, s)
        /\ Diagnostics.backend r = "✅ Running"
        /\ Diagnostics.connection_status r = "Not Connected"
        /\ Diagnostics.database r
           = match s with
             | Some _ => "✅ Connected"
             | None => "❌ Not Available"
             end
        /\ Diagnostics.collections r
           = match list_collection_names s with
             | (Ok names, _) => names
             | (Raise _, _) => []
             end
        /\ forall detail, Diagnostics.database r <> "❌ Error: " ++ detail)
  /\ (forall d d',
        reachable d = false ->
        reachable d' = true ->
        collections d' = ∅ ->
        exists r,
          list_collection_names (Some d) = (Raise StoreError, Some d)
          /\ test_database environ (Some d) = (Ok r, Some d)
          /\ test_database environ (Some d') = (Ok r, Some d')
          /\ Diagnostics.database r = "✅ Connected"
          /\ Diagnostics.collections r = []).
Proof.
  split.
  - intros [d|].
    + destruct (reachable d) eqn:Hup; eexists;
        unfold test_database, with_local, try_except, bind, on_db, update,
          db_is_not_None, list_collection_names, ret; simpl; rewrite Hup; simpl;
        split_conj; try reflexivity; intros detail; discriminate.
    + eexists. split_conj; try reflexivity. intros detail; discriminate.
  - intros d d' Hdown Hup Hempty. eexists.
    unfold test_database, with_local, try_except, bind, on_db, update,
      db_is_not_None, list_collection_names, ret; simpl.
    rewrite Hdown, Hup, Hempty, map_to_list_empty; simpl.
    split_conj; reflexivity.
Qed.

(** On a store that is configured but does not answer, the failure of the
    collection listing is passed over: the response still says connected and
    lists no collections. *)
Example test_database_unreachable_store :
  test_database {[ "DATABASE_URL" := "mongodb://db:27017" ]}
    (Some Sample.unreachable_shop)
  = (Ok {| Diagnostics.backend := "✅ Running";
           Diagnostics.database := "✅ Connected";
           Diagnostics.database_url := Some "✅ Set";
           Diagnostics.database_name := Some "❌ Not Set";
           Diagnostics.connection_status := "Not Connected";
           Diagnostics.collections := [] |},
     Some Sample.unreachable_shop).
Proof. reflexivity. Qed.

Example test_database_no_store :
  test_database ∅ None
  = (Ok {| Diagnostics.backend := "✅ Running";
           Diagnostics.database := "❌ Not Available";
           Diagnostics.database_url := None;
           Diagnostics.database_name := None;
           Diagnostics.connection_status := "Not Connected";
           Diagnostics.collections := [] |},
     None).
Proof. reflexivity. Qed.

(** ** Upload intake *)

Lemma sextet_forall (p : N -> bool) :
  forallb p (N.of_nat <$> seq 0 64) = true ->
  forall n, (n < 64)%N -> p n = true.
Proof.
  intros Hall n Hn. rewrite forallb_forall in Hall. apply Hall.
  apply in_map_iff. exists (N.to_nat n). split; [lia|]. apply in_seq. lia.
Qed.

Lemma index_of_char_of n :
  (n < 64)%N -> Base64.index_of (Base64.char_of n) = Some n.
Proof.
  intros Hn.
  pose proof (sextet_forall
                (fun n => match Base64.index_of (Base64.char_of n) with
                          | Some m => (m =? n)%N
                          | None => false
                          end) ltac:(vm_compute; reflexivity) n Hn) as Hidx.
  simpl in Hidx.
  destruct (Base64.index_of (Base64.char_of n)) as [m|]; [|discriminate].
  now apply N.eqb_eq in Hidx as ->.
Qed.

Lemma char_of_not_pad n :
  (n < 64)%N -> Ascii.eqb (Base64.char_of n) Base64.pad = false.
Proof.
  intros Hn.
  pose proof (sextet_forall
                (fun n => negb (Ascii.eqb (Base64.char_of n) Base64.pad))
                ltac:(vm_compute; reflexivity) n Hn) as Hpad.
  now apply negb_true_iff in Hpad.
Qed.

Lemma pad_eqb : Ascii.eqb Base64.pad Base64.pad = true.
Proof. reflexivity. Qed.

(** The sextets of a 24-bit group, and the bytes they give back. *)
Lemma group_sextets (x y z : N) :
  (x < 256 -> y < 256 -> z < 256 ->
   let n := x * 65536 + y * 256 + z in
   n / 262144 < 64 /\ (n / 4096) mod 64 < 64 /\ (n / 64) mod 64 < 64
   /\ n mod 64 < 64
   /\ n / 262144 * 262144 + (n / 4096) mod 64 * 4096 + (n / 64) mod 64 * 64
      + n mod 64 = n
   /\ n / 65536 = x /\ (n / 256) mod 256 = y /\ n mod 256 = z)%N.
Proof.
  intros Hx Hy Hz n. subst n.
  zify. Z.to_euclidean_division_equations. lia.
Qed.

Lemma group_one (x : N) :
  (x < 256 ->
   let n := x * 65536 in
   n / 262144 < 64 /\ (n / 4096) mod 64 < 64
   /\ (n / 262144 * 262144 + (n / 4096) mod 64 * 4096) / 65536 = x)%N.
Proof.
  intros Hx n. subst n. zify. Z.to_euclidean_division_equations. lia.
Qed.

Lemma group_two (x y : N) :
  (x < 256 -> y < 256 ->
   let n := x * 65536 + y * 256 in
   let n' := n / 262144 * 262144 + (n / 4096) mod 64 * 4096
             + (n / 64) mod 64 * 64 in
   n / 262144 < 64 /\ (n / 4096) mod 64 < 64 /\ (n / 64) mod 64 < 64
   /\ n' / 65536 = x /\ (n' / 256) mod 256 = y)%N.
Proof.
  intros Hx Hy n n'. subst n n'. zify. Z.to_euclidean_division_equations. lia.
Qed.

Lemma byte_bounded (b : byte) : (Byte.to_N b < 256)%N.
Proof. pose proof (Byte.to_N_bounded b). lia. Qed.

Lemma list_ind3 {A} (P : list A -> Prop) :
  P [] -> (forall a, P [a]) -> (forall a b, P [a; b]) ->
  (forall a b c l, P l -> P (a :: b :: c :: l)) ->
  forall l, P l.
Proof.
  intros H0 H1 H2 H3. fix IH 1.
  intros [|a [|b [|c l]]]; [exact H0|apply H1|apply H2|apply H3, IH].
Qed.

(** Decoding what was encoded gives the bytes back. *)
Lemma decode_encode bs : Base64.decode (Base64.encode bs) = Some bs.
Proof.
  induction bs as [|b0|b0 b1|b0 b1 b2 rest IH] using list_ind3.
  - reflexivity.
  - destruct (group_one _ (byte_bounded b0)) as (H0 & H1 & Hb0).
    cbn [Base64.encode Base64.decode].
    rewrite (index_of_char_of _ H0), (index_of_char_of _ H1).
    cbn [mbind option_bind]. rewrite !pad_eqb, Hb0, Byte.of_to_N.
    reflexivity.
  - destruct (group_two _ _ (byte_bounded b0) (byte_bounded b1))
      as (H0 & H1 & H2 & Hb0 & Hb1).
    cbn [Base64.encode Base64.decode].
    rewrite (index_of_char_of _ H0), (index_of_char_of _ H1).
    cbn [mbind option_bind].
    rewrite pad_eqb, (char_of_not_pad _ H2), (index_of_char_of _ H2).
    cbn [mbind option_bind]. rewrite Hb0, Hb1, !Byte.of_to_N.
    reflexivity.
  - destruct (group_sextets _ _ _ (byte_bounded b0) (byte_bounded b1)
                (byte_bounded b2))
      as (H0 & H1 & H2 & H3 & Hn & Hb0 & Hb1 & Hb2).
    cbn [Base64.encode Base64.decode].
    rewrite (index_of_char_of _ H0), (index_of_char_of _ H1).
    cbn [mbind option_bind].
    rewrite (char_of_not_pad _ H3), (index_of_char_of _ H2),
      (index_of_char_of _ H3).
    cbn [mbind option_bind].
    rewrite Hn, Hb0, Hb1, Hb2, !Byte.of_to_N, IH.
    reflexivity.
Qed.

Lemma b64decode_b64encode content :
  Base64.b64decode (Base64.b64encode content) = Some content.
Proof.
  unfold Base64.b64decode, Base64.b64encode.
  rewrite list_ascii_of_string_of_list_ascii. apply decode_encode.
Qed.

(** C6: every upload that is stored has, for a payload of N bytes, the
    declared size N, and base64-decoding its stored payload gives exactly the
    uploaded bytes; an upload with a file name, a readable payload and a
    reachable store is stored. *)
Theorem upload_size_and_round_trip :
  (forall file s id s',
      upload_art file s = (Ok id, s') ->
      exists d d' content oid u,
        s = Some d /\ s' = Some d'
        /\ UploadFile.read file = Ok content
        /\ stored d "upload" (oid, Upload.model_dump u) d'
        /\ id = oid_hex oid
        /\ Upload.size u = Z.of_nat (length content)
        /\ Base64.b64decode (Upload.data_b64 u) = Some content
        /\ Upload.model_dump u !! "size"
           = Some (VInt (Z.of_nat (length content)))
        /\ Upload.model_dump u !! "data_b64"
           = Some (VStr (Base64.b64encode content)))
  /\ (forall d file content name,
        reachable d = true ->
        UploadFile.read file = Ok content ->
        UploadFile.filename file = Some name ->
        exists id d', upload_art file (Some d) = (Ok id, Some d')).
Proof.
  split.
  - intros file s id s'. unfold upload_art, try_except, bind at 1, lift.
    destruct (UploadFile.read file) as [content|] eqn:Hread; [|discriminate].
    unfold bind at 1.
    destruct (Upload_validate _ _ _ _) as [u|] eqn:Hu; [|discriminate].
    unfold bind, ret.
    destruct (create_document _ _ s) as [[id'|] s1] eqn:Hcreate; [|discriminate].
    intros [= <- <-].
    apply create_document_ok in Hcreate as (d & -> & Hup & -> & ->).
    unfold Upload_validate in Hu.
    destruct (UploadFile.filename file) as [name|]; [|discriminate].
    injection Hu as <-.
    eexists d, _, content, _, _.
    split_conj; try apply insert_one_stored; try reflexivity.
    apply b64decode_b64encode.
  - intros d file content name Hup Hread Hname.
    unfold upload_art, try_except, bind at 1, lift. rewrite Hread.
    unfold bind at 1, Upload_validate. rewrite Hname.
    unfold bind, ret. rewrite (create_document_run _ _ _ Hup). eauto.
Qed.

(** ** Style catalog *)

Lemma project_id_no_raw_id (s : document) : project_id s !! "_id" = None.
Proof.
  unfold project_id. destruct (s !! "_id") eqn:Hid; [|exact Hid].
  rewrite lookup_insert_ne by discriminate. apply lookup_delete_eq.
Qed.

Lemma project_id_with_id r :
  r.2 !! "_id" = None ->
  project_id (with_id r) = <["id" := VStr (oid_hex r.1)]> r.2.
Proof.
  intros Hfresh. unfold project_id, with_id.
  rewrite lookup_insert_eq. simpl.
  now rewrite delete_insert_eq, delete_id.
Qed.

Lemma project_id_with_id_lookup r :
  project_id (with_id r) !! "id" = Some (VStr (oid_hex r.1)).
Proof.
  unfold project_id, with_id. rewrite lookup_insert_eq. simpl.
  apply lookup_insert_eq.
Qed.

Lemma get_documents_run name d :
  reachable d = true ->
  get_documents name (Some d) = (Ok (with_id <$> collection d name), Some d).
Proof. intros Hup. unfold get_documents. now rewrite Hup. Qed.

Lemma get_documents_ok name s docs s' :
  get_documents name s = (Ok docs, s') ->
  exists d, s = Some d /\ s' = Some d /\ docs = with_id <$> collection d name.
Proof.
  unfold get_documents. destruct s as [d|]; [|discriminate].
  destruct (reachable d); [|discriminate]. intros [= <- <-]. eauto.
Qed.

Lemma collection_insert_one d name record :
  collection (insert_one d name record).2 name
  = (collection d name ++ [((insert_one d name record).1, record)])%list.
Proof. apply insert_one_stored. Qed.

(** The records returned for the records of a collection. *)
Lemma project_all_ids (records : list (ObjectId * document)) :
  Forall2 (fun record r =>
             r !! "_id" = None /\ r !! "id" = Some (VStr (oid_hex record.1)))
    records (project_id <$> (with_id <$> records)).
Proof.
  induction records as [|record records IH]; constructor; [|exact IH].
  split; [apply project_id_no_raw_id|apply project_id_with_id_lookup].
Qed.

(** C5: listing styles on a reachable store whose catalog collection is
    empty first seeds exactly the three fixed default styles (Carbon Fiber,
    Aluminum and Titanium slim wallets) and then returns them; and every
    record that [list_styles] returns, seeded or not, carries the identifier
    of its stored record as a string under ["id"] and has no ["_id"] left. *)
Theorem list_styles_seeds_and_projects_ids :
  (forall d,
      reachable d = true ->
      collection d "walletstyle" = [] ->
      exists oid1 oid2 oid3 d',
        list_styles (Some d)
        = (Ok (Styles
                 (zip_with
                    (fun oid s =>
                       <["id" := VStr (oid_hex oid)]> (WalletStyle.model_dump s))
                    [oid1; oid2; oid3] seeds)),
           Some d')
        /\ collection d' "walletstyle"
           = zip [oid1; oid2; oid3] (WalletStyle.model_dump <$> seeds)
        /\ WalletStyle.title <$> seeds
           = ["Carbon Fiber Slim Wallet"; "Aluminum Slim Wallet";
              "Titanium Slim Wallet"])
  /\ (forall s styles s',
        list_styles s = (Ok (Styles styles), s') ->
        exists d',
          s' = Some d'
          /\ Forall2
               (fun record r =>
                  r !! "_id" = None
                  /\ r !! "id" = Some (VStr (oid_hex record.1)))
               (collection d' "walletstyle") styles).
Proof.
  split.
  - intros d Hup Hempty.
    set (r1 := insert_one d "walletstyle" (WalletStyle.model_dump carbon_fiber)).
    set (r2 := insert_one r1.2 "walletstyle" (WalletStyle.model_dump aluminum)).
    set (r3 := insert_one r2.2 "walletstyle" (WalletStyle.model_dump titanium)).
    assert (Hcoll : collection r3.2 "walletstyle"
                    = zip [r1.1; r2.1; r3.1] (WalletStyle.model_dump <$> seeds)).
    { subst r3. rewrite collection_insert_one. subst r2.
      rewrite collection_insert_one. subst r1.
      rewrite collection_insert_one, Hempty. reflexivity. }
    exists r1.1, r2.1, r3.1, r3.2. split_conj; [|exact Hcoll|reflexivity].
    unfold list_styles, try_except, bind at 1.
    rewrite (get_documents_run _ _ Hup), Hempty. simpl fmap.
    unfold bind at 1. cbn [for_each seeds]. unfold bind, ret.
    rewrite (create_document_run _ _ d Hup). fold r1.
    rewrite (create_document_run _ _ r1.2 Hup). fold r2.
    rewrite (create_document_run _ _ r2.2 Hup). fold r3.
    rewrite (get_documents_run _ r3.2 Hup), Hcoll.
    unfold seeds. cbn [zip zip_with fmap list_fmap].
    rewrite !project_id_with_id by reflexivity. reflexivity.
  - intros s styles s'. unfold list_styles, try_except, bind at 1.
    destruct (get_documents "walletstyle" s) as [[docs|] s1] eqn:Hread;
      [|discriminate].
    apply get_documents_ok in Hread as (d & -> & -> & ->).
    destruct (with_id <$> collection d "walletstyle") as [|doc docs] eqn:Hdocs.
    + unfold bind at 1.
      destruct (bind _ _ (Some d)) as [[docs'|] s1] eqn:Hseed; [|discriminate].
      revert Hseed. unfold bind at 1.
      destruct (for_each _ seeds tt (Some d)) as [[[]|] s2]; [|discriminate].
      intros Hread [= <- <-].
      apply get_documents_ok in Hread as (d' & -> & -> & ->).
      exists d'. split; [reflexivity|apply project_all_ids].
    + unfold bind, ret. intros [= <- <-].
      exists d. split; [reflexivity|].
      change (project_id doc :: _) with (project_id <$> doc :: docs).
      rewrite <- Hdocs. apply project_all_ids.
Qed.

(** ** How a checkout fails *)

Lemma py_float_raise v e : py_float v = Raise e -> is_http e = false.
Proof.
  destruct v as [| |z| |s| | |]; simpl; try (now intros [= <-]); try discriminate.
  - unfold float_of_int. destruct (of_Z z); (discriminate || now intros [= <-]).
  - destruct (float_of_str s); [discriminate|now intros [= <-]].
Qed.

Lemma float_of_int_raise z e : float_of_int z = Raise e -> is_http e = false.
Proof.
  unfold float_of_int. destruct (of_Z z); (discriminate || now intros [= <-]).
Qed.

Lemma ObjectId_of_str_raise s e : ObjectId_of_str s = Raise e -> is_http e = false.
Proof.
  unfold ObjectId_of_str. destruct (_ =? _)%nat; [|now intros [= <-]].
  destruct (fromhex s); [discriminate|now intros [= <-]].
Qed.

(** The loop body raises the 404 of its own item or an exception that is not
    an [HTTPException]. *)
Lemma checkout_item_raise item acc s e s' :
  checkout_item item acc s = (Raise e, s') ->
  is_http e = false
  \/ e = HTTPException 404 ("Product not found: " ++ CartItemIn.product_id item).
Proof.
  destruct acc as [items_full subtotal].
  unfold checkout_item, bind, lift, db_getitem, find_one, raise, ret.
  destruct s as [d|]; [|intros [= <- _]; now left].
  destruct (ObjectId_of_str _) as [oid|e0] eqn:Hoid.
  2:{ intros [= <- _]. left. exact (ObjectId_of_str_raise _ _ Hoid). }
  destruct (reachable d); [|intros [= <- _]; now left].
  destruct (py_not _); [intros [= <- _]; now right|].
  destruct (py_float _) as [p|e0] eqn:Hp.
  2:{ intros [= <- _]. left. exact (py_float_raise _ _ Hp). }
  destruct (float_of_int _) as [q|e0] eqn:Hq; [discriminate|].
  intros [= <- _]. left. exact (float_of_int_raise _ _ Hq).
Qed.

Lemma for_each_checkout_raise items acc s e s' :
  for_each checkout_item items acc s = (Raise e, s') ->
  is_http e = false
  \/ exists item,
      item ∈ items
      /\ e = HTTPException 404
               ("Product not found: " ++ CartItemIn.product_id item).
Proof.
  revert acc s. induction items as [|item items IH]; intros acc s;
    cbn [for_each]; [discriminate|].
  unfold bind at 1.
  destruct (checkout_item item acc s) as [[acc'|e0] s1] eqn:Hitem.
  - intros Hloop. destruct (IH _ _ Hloop) as [He|(it & Hin & He)];
      [now left|right]. exists it. split; [now apply elem_of_cons; right|exact He].
  - intros [= <- _]. destruct (checkout_item_raise _ _ _ _ _ Hitem) as [He|He];
      [now left|right]. exists item. split; [apply elem_of_cons; now left|exact He].
Qed.

Lemma Order_validate_raise items customer subtotal shipping total status e :
  Order_validate items customer subtotal shipping total status = Raise e ->
  is_http e = false.
Proof.
  unfold Order_validate. destruct (_ ++ _)%list; [discriminate|now intros [= <-]].
Qed.

Lemma create_document_raise_exn name data s e s' :
  create_document name data s = (Raise e, s') -> e = StoreError.
Proof.
  unfold create_document. destruct s as [d|]; [|now intros [= <- _]].
  destruct (reachable d); [|now intros [= <- _]].
  now destruct (insert_one d name (model_dump data)).
Qed.

(** X1: a checkout that fails always fails with an [HTTPException], leaves
    the store as it was, and its status is either 404, with the message naming
    the product id of one of the cart's items, or 400, carrying the text of an
    exception that is not itself an [HTTPException]. *)
Theorem checkout_failure_is_client_error payload s e s' :
  checkout payload s = (Raise e, s') ->
  s' = s
  /\ ((exists e0, is_http e0 = false /\ e = HTTPException 400 (str_exn e0))
      \/ exists item,
          item ∈ CheckoutIn.items payload
          /\ e = HTTPException 404
                   ("Product not found: " ++ CartItemIn.product_id item)).
Proof.
  intros Hraise. split; [exact (checkout_raise _ _ _ _ Hraise)|].
  revert Hraise. unfold checkout, try_except.
  destruct (checkout_try payload s) as [[out|e0] s1] eqn:Htry; [discriminate|].
  assert (Hcases : is_http e0 = false
                   \/ exists item,
                       item ∈ CheckoutIn.items payload
                       /\ e0 = HTTPException 404
                                 ("Product not found: "
                                  ++ CartItemIn.product_id item)).
  { revert Htry. unfold checkout_try, bind at 1.
    destruct (for_each _ _ _ s) as [[[items_full subtotal]|e1] s2] eqn:Hloop.
    - unfold bind at 1, lift.
      destruct (Order_validate _ _ _ _ _ _) as [order|e2] eqn:Hval.
      + unfold bind, ret.
        destruct (create_document _ _ s2) as [[id|e3] s3] eqn:Hcreate;
          [discriminate|].
        intros [= <- _]. left.
        now rewrite (create_document_raise_exn _ _ _ _ _ Hcreate).
      + intros [= <- _]. left. exact (Order_validate_raise _ _ _ _ _ _ _ Hval).
    - intros [= <- _]. exact (for_each_checkout_raise _ _ _ _ _ Hloop). }
  destruct Hcases as [He0|(item & Hin & ->)].
  - destruct e0; try discriminate He0; unfold checkout_except, raise;
      intros [= <- _]; left; eexists; (split; [|reflexivity]); reflexivity.
  - unfold checkout_except, raise. intros [= <- _]. right. now exists item.
Qed.

Lemma checkout_item_unavailable item acc s :
  available s = false ->
  exists e, is_http e = false /\ checkout_item item acc s = (Raise e, s).
Proof.
  intros Hs. destruct acc as [items_full subtotal].
  unfold checkout_item, bind, lift, db_getitem, find_one, raise, ret.
  destruct s as [d|]; [|now exists TypeError].
  simpl in Hs.
  destruct (ObjectId_of_str _) as [oid|e0] eqn:Hoid.
  - rewrite Hs. now exists StoreError.
  - exists e0. split; [exact (ObjectId_of_str_raise _ _ Hoid)|reflexivity].
Qed.

(** X2: on a store that is absent or does not answer, every checkout,
    whatever the cart, fails with the client error 400 (never 404, never a
    success) and the store handle is left as it was. *)
Theorem checkout_unavailable_store payload s :
  available s = false ->
  exists e0,
    is_http e0 = false
    /\ checkout payload s = (Raise (HTTPException 400 (str_exn e0)), s).
Proof.
  intros Hs.
  assert (Htry : exists e0, is_http e0 = false
                            /\ checkout_try payload s = (Raise e0, s)).
  { unfold checkout_try, bind at 1.
    destruct (CheckoutIn.items payload) as [|item items]; cbn [for_each].
    - unfold ret at 1, bind at 1, lift.
      destruct (Order_validate _ _ _ _ _ _) as [order|e2] eqn:Hval.
      + unfold bind, ret, create_document.
        destruct s as [d|]; [|now exists StoreError].
        simpl in Hs. rewrite Hs. now exists StoreError.
      + exists e2. split; [exact (Order_validate_raise _ _ _ _ _ _ _ Hval)|].
        reflexivity.
    - unfold bind at 1.
      destruct (checkout_item_unavailable item ([], zero) s Hs) as (e0 & He0 & ->).
      now exists e0. }
  destruct Htry as (e0 & He0 & Htry). exists e0. split; [exact He0|].
  unfold checkout, try_except. rewrite Htry.
  destruct e0; try discriminate He0; reflexivity.
Qed.

(** ** What a checkout stores *)

Lemma resolved_lines_cart d items lines :
  mapM (resolved_line d) items = Some lines ->
  CartItem_of <$> lines
  = (fun item =>
       {| CartItem.product_id := CartItemIn.product_id item;
          CartItem.quantity := CartItemIn.quantity item;
          CartItem.finish := CartItemIn.finish item;
          CartItem.engraving_text := CartItemIn.engraving_text item;
          CartItem.upload_id := CartItemIn.upload_id item |}) <$> items
  /\ Forall2 (fun item line =>
                ItemFull.quantity line = CartItemIn.quantity item) items lines.
Proof.
  intros Hlines. apply mapM_Some in Hlines.
  induction Hlines as [|item line items lines Hline _ [IH1 IH2]];
    [split; [reflexivity|constructor]|].
  split.
  - cbn [fmap list_fmap]. f_equal; [|exact IH1].
    unfold resolved_line in Hline.
    destruct (catalog_entry _ _) as [prod|]; [|discriminate]. simpl in Hline.
    destruct (unit_price prod); [|discriminate]. simpl in Hline.
    now injection Hline as <-.
  - constructor; [exact (resolved_line_quantity _ _ _ Hline)|exact IH2].
Qed.

Lemma ge0_errors_nil field x : ge0_errors field x = [] <-> fle zero x = true.
Proof. unfold ge0_errors. now destruct (fle zero x). Qed.

(** The order model accepts exactly the lines with a quantity of at least 1
    together with amounts that are at least 0. *)
Lemma Order_validate_accepts lines customer subtotal shipping total status :
  (exists o,
      Order_validate lines customer subtotal shipping total status = Ok o)
  <-> Forall (fun line => 1 <= ItemFull.quantity line) lines
      /\ fle zero subtotal = true /\ fle zero shipping = true
      /\ fle zero total = true.
Proof.
  split.
  - intros [o Ho]. split; [exact (proj2 (Order_validate_ok _ _ _ _ _ _ _ Ho))|].
    revert Ho. unfold Order_validate.
    destruct (_ ++ _)%list as [|err errs] eqn:Herrs; [|discriminate]. intros _.
    apply app_eq_nil in Herrs as [_ Herrs].
    apply app_eq_nil in Herrs as [H1 Herrs].
    apply app_eq_nil in Herrs as [H2 H3].
    now rewrite ge0_errors_nil in H1, H2, H3.
  - intros (Hqty & H1 & H2 & H3). unfold Order_validate.
    rewrite (proj2 (ge0_errors_nil "subtotal" _) H1),
      (proj2 (ge0_errors_nil "shipping" _) H2),
      (proj2 (ge0_errors_nil "total" _) H3).
    assert (Hnil : concat (imap CartItem_errors lines) = []).
    { apply concat_nil_Forall, Forall_lookup. intros i errs.
      rewrite list_lookup_imap.
      destruct (lines !! i) as [line|] eqn:Hline; [|discriminate].
      intros [= <-]. unfold CartItem_errors.
      rewrite Forall_lookup in Hqty.
      now rewrite (proj2 (Z.leb_le _ _) (Hqty i line Hline)). }
    rewrite Hnil. eauto.
Qed.

Lemma shipping_for_nonneg raw : fle zero (shipping_for raw) = true.
Proof. unfold shipping_for. now destruct (flt raw seventy_five). Qed.

Lemma quantities_of_lines d items lines :
  mapM (resolved_line d) items = Some lines ->
  Forall (fun line => 1 <= ItemFull.quantity line) lines
  <-> Forall (fun item => 1 <= CartItemIn.quantity item) items.
Proof.
  intros Hlines. destruct (resolved_lines_cart _ _ _ Hlines) as [_ Hq].
  clear Hlines. induction Hq as [|item line items lines Heq _ IH].
  - split; constructor.
  - rewrite !Forall_cons, IH, Heq. reflexivity.
Qed.

(** A successful checkout, in terms of the cart alone. *)
Lemma checkout_ok_order payload s out s' :
  checkout payload s = (Ok out, s') ->
  exists d raw,
    s = Some d /\ reachable d = true
    /\ raw_subtotal d (CheckoutIn.items payload) = Some raw
    /\ Forall (fun item => 1 <= CartItemIn.quantity item)
         (CheckoutIn.items payload)
    /\ fle zero (round2 raw) = true
    /\ fle zero (round2 (fadd raw (shipping_for raw))) = true
    /\ let order :=
         pending_order (CheckoutIn.items payload) (CheckoutIn.customer payload)
           (round2 raw) (shipping_for raw)
           (round2 (fadd raw (shipping_for raw))) in
       s' = Some (insert_one d "order" (Order.model_dump order)).2
       /\ out = {| CheckoutOut.order_id :=
                     oid_hex (insert_one d "order" (Order.model_dump order)).1;
                   CheckoutOut.status := "pending";
                   CheckoutOut.amount := round2 (fadd raw (shipping_for raw)) |}.
Proof.
  intros Hok.
  apply checkout_ok in Hok
    as (d & raw & lines & order & -> & Hup & Hraw & Hlines & Horder & -> & ->).
  pose proof (proj1 (Order_validate_accepts _ _ _ _ _ _) (ex_intro _ _ Horder))
    as (Hqty & H1 & _ & H3).
  apply (quantities_of_lines _ _ _ Hlines) in Hqty.
  apply Order_validate_ok in Horder as [-> _].
  destruct (resolved_lines_cart _ _ _ Hlines) as [Hcart _].
  exists d, raw. split_conj; try assumption; try reflexivity.
  intros order'. subst order'. unfold pending_order. now rewrite Hcart.
Qed.

(** Conversely, the conditions under which a checkout goes through. *)
Lemma checkout_succeeds payload d raw :
  reachable d = true ->
  raw_subtotal d (CheckoutIn.items payload) = Some raw ->
  Forall (fun item => 1 <= CartItemIn.quantity item) (CheckoutIn.items payload) ->
  fle zero (round2 raw) = true ->
  fle zero (round2 (fadd raw (shipping_for raw))) = true ->
  let order :=
    pending_order (CheckoutIn.items payload) (CheckoutIn.customer payload)
      (round2 raw) (shipping_for raw) (round2 (fadd raw (shipping_for raw))) in
  checkout payload (Some d)
  = (Ok {| CheckoutOut.order_id :=
             oid_hex (insert_one d "order" (Order.model_dump order)).1;
           CheckoutOut.status := "pending";
           CheckoutOut.amount := round2 (fadd raw (shipping_for raw)) |},
     Some (insert_one d "order" (Order.model_dump order)).2).
Proof.
  intros Hup Hraw Hqty H1 H3 order.
  assert (Hlines : exists lines,
             mapM (resolved_line d) (CheckoutIn.items payload) = Some lines).
  { unfold raw_subtotal in Hraw.
    destruct (mapM (line_price d) _) as [prices|] eqn:Hprices; [|discriminate].
    destruct (for_each_checkout_priced d _ [] zero prices Hup Hprices)
      as (lines & Hlines & _). eauto. }
  destruct Hlines as [lines Hlines].
  apply (quantities_of_lines _ _ _ Hlines) in Hqty.
  destruct (proj2 (Order_validate_accepts lines (CheckoutIn.customer payload)
                     (round2 raw) (shipping_for raw)
                     (round2 (fadd raw (shipping_for raw))) "pending")
              (conj Hqty (conj H1 (conj (shipping_for_nonneg raw) H3))))
    as [o Ho].
  rewrite (checkout_run payload d raw lines o Hup Hraw Hlines Ho).
  apply Order_validate_ok in Ho as [-> _].
  destruct (resolved_lines_cart _ _ _ Hlines) as [Hcart _].
  subst order. unfold pending_order. now rewrite Hcart.
Qed.

(** X3: a successful checkout files exactly one order, built from the cart
    alone: its lines are the cart's items in cart order with their product
    id, quantity, finish, engraving text and upload id (the resolved title
    and unit price of [items_full] are not fields of the order's lines and are
    not stored), its customer is the request's customer, its status is
    pending; the response carries the identifier the order was filed under,
    the status pending and the order's total. *)
Theorem checkout_files_cart_as_order payload s out s' :
  checkout payload s = (Ok out, s') ->
  exists d raw,
    s = Some d
    /\ raw_subtotal d (CheckoutIn.items payload) = Some raw
    /\ let order :=
         pending_order (CheckoutIn.items payload) (CheckoutIn.customer payload)
           (round2 raw) (shipping_for raw)
           (round2 (fadd raw (shipping_for raw))) in
       s' = Some (insert_one d "order" (Order.model_dump order)).2
       /\ CheckoutOut.order_id out
          = oid_hex (insert_one d "order" (Order.model_dump order)).1
       /\ CheckoutOut.status out = "pending"
       /\ CheckoutOut.amount out = Order.total order
       /\ length (Order.items order) = length (CheckoutIn.items payload)
       /\ Forall (fun c =>
                    CartItem.model_dump c !! "title" = None
                    /\ CartItem.model_dump c !! "price_each" = None)
            (Order.items order).
Proof.
  intros Hok.
  apply checkout_ok_order in Hok
    as (d & raw & -> & _ & Hraw & _ & _ & _ & -> & ->).
  exists d, raw. split; [reflexivity|]. split; [assumption|]. intros order.
  split_conj; try reflexivity.
  - simpl. apply length_fmap.
  - apply Forall_forall. intros c _. split; reflexivity.
Qed.

(** X4: a checkout succeeds only when the store is present and reachable,
    every cart line has a price (its product id is accepted by [ObjectId]
    and in the catalog, the stored price and the quantity convert to
    floats), every quantity is at least 1, and the rounded subtotal and the
    total are at least 0. *)
Theorem checkout_succeeds_only_if payload s out s' :
  checkout payload s = (Ok out, s') ->
  exists d raw,
    s = Some d /\ reachable d = true
    /\ raw_subtotal d (CheckoutIn.items payload) = Some raw
    /\ Forall (fun item => 1 <= CartItemIn.quantity item)
         (CheckoutIn.items payload)
    /\ Forall (fun item =>
                 is_Some (catalog_entry d (CartItemIn.product_id item)))
         (CheckoutIn.items payload)
    /\ fle zero (round2 raw) = true
    /\ fle zero (round2 (fadd raw (shipping_for raw))) = true.
Proof.
  intros Hok.
  apply checkout_ok_order in Hok
    as (d & raw & -> & Hup & Hraw & Hqty & H1 & H3 & _).
  exists d, raw. split_conj; try assumption; try reflexivity.
  unfold raw_subtotal in Hraw.
  destruct (mapM (line_price d) (CheckoutIn.items payload)) as [prices|]
    eqn:Hprices; [|discriminate].
  apply mapM_Some in Hprices. apply Forall_forall. intros item Hin.
  apply list_elem_of_lookup in Hin as [i Hi].
  destruct (Forall2_lookup_l _ _ _ _ _ Hprices Hi) as (price & _ & Hprice).
  destruct (line_price_inv _ _ _ Hprice) as (_ & prod & _ & _ & _ & -> & _).
  now exists prod.
Qed.

Lemma line_price_fields d item1 item2 :
  CartItemIn.product_id item1 = CartItemIn.product_id item2 ->
  CartItemIn.quantity item1 = CartItemIn.quantity item2 ->
  line_price d item1 = line_price d item2.
Proof. unfold line_price. now intros -> ->. Qed.

Lemma raw_subtotal_fields d items1 items2 :
  priced_fields <$> items1 = priced_fields <$> items2 ->
  raw_subtotal d items1 = raw_subtotal d items2
  /\ (Forall (fun item => 1 <= CartItemIn.quantity item) items1
      -> Forall (fun item => 1 <= CartItemIn.quantity item) items2).
Proof.
  intros Hfields.
  assert (Hprices : mapM (line_price d) items1 = mapM (line_price d) items2
                    /\ (Forall (fun item => 1 <= CartItemIn.quantity item) items1
                        -> Forall (fun item => 1 <= CartItemIn.quantity item)
                             items2)).
  { revert items2 Hfields.
    induction items1 as [|i1 items1 IH]; intros [|i2 items2]; try discriminate;
      [split; [reflexivity|constructor]|].
    cbn [fmap list_fmap mapM]. unfold priced_fields at 1 3.
    intros [= Hpid Hq Htail]. destruct (IH _ Htail) as [Hm Hall].
    rewrite (line_price_fields d i1 i2 Hpid Hq), Hm. split; [reflexivity|].
    rewrite !Forall_cons, <- Hq. intros [Hq1 Hrest]. auto. }
  destruct Hprices as [Hm Hall]. unfold raw_subtotal. now rewrite Hm.
Qed.

(** X5: the price is read from the catalog, never from the request: two
    carts that name the same product ids with the same quantities in the same
    order, checked out on the same store, succeed together and are charged the
    same amount, whatever their finishes, engraving texts, upload ids and
    customers. *)
Theorem checkout_amount_from_catalog payload1 payload2 s out1 s1 :
  priced_fields <$> CheckoutIn.items payload1
  = priced_fields <$> CheckoutIn.items payload2 ->
  checkout payload1 s = (Ok out1, s1) ->
  exists out2 s2,
    checkout payload2 s = (Ok out2, s2)
    /\ CheckoutOut.amount out2 = CheckoutOut.amount out1
    /\ CheckoutOut.order_id out2 = CheckoutOut.order_id out1.
Proof.
  intros Hfields Hok.
  apply checkout_ok_order in Hok
    as (d & raw & -> & Hup & Hraw & Hqty & H1 & H3 & _ & ->).
  destruct (raw_subtotal_fields d _ _ Hfields) as [Hsame Hqty2].
  rewrite Hsame in Hraw.
  eexists _, _. split_conj;
    [exact (checkout_succeeds payload2 d raw Hup Hraw (Hqty2 Hqty) H1 H3)
    |reflexivity..].
Qed.

(** ** Listing styles, seeded or not *)

Lemma seeding_run d :
  reachable d = true ->
  for_each
    (fun s (_ : unit) =>
       let* _ := create_document "walletstyle" (MWalletStyle s) in ret tt)
    seeds tt (Some d)
  = (Ok tt, Some (seeded d))
  /\ reachable (seeded d) = true
  /\ collection (seeded d) "walletstyle" <> []
  /\ forall name, name <> "walletstyle" ->
       collection (seeded d) name = collection d name.
Proof.
  intros Hup. unfold seeded, seeds. cbn [for_each foldl]. split_conj.
  - unfold bind, ret.
    rewrite (create_document_run _ _ d Hup).
    set (d1 := (insert_one d "walletstyle" _).2).
    rewrite (create_document_run _ _ d1 Hup).
    set (d2 := (insert_one d1 "walletstyle" _).2).
    now rewrite (create_document_run _ _ d2 Hup).
  - exact Hup.
  - rewrite collection_insert_one. now destruct (collection _ _).
  - intros name Hname.
    rewrite (proj2 (insert_one_stored _ _ _) name Hname).
    rewrite (proj2 (insert_one_stored _ _ _) name Hname).
    exact (proj2 (insert_one_stored _ _ _) name Hname).
Qed.

(** [list_styles] on a reachable store: an empty catalog is seeded first. *)
Lemma list_styles_run_empty d :
  reachable d = true ->
  collection d "walletstyle" = [] ->
  list_styles (Some d)
  = (Ok (Styles
           (project_id <$> (with_id <$> collection (seeded d) "walletstyle"))),
     Some (seeded d)).
Proof.
  intros Hup Hcoll. unfold list_styles, try_except, bind at 1.
  rewrite (get_documents_run _ _ Hup), Hcoll.
  cbn [fmap list_fmap]. unfold bind at 1, bind at 1.
  destruct (seeding_run d Hup) as (-> & Hup' & _).
  now rewrite (get_documents_run _ _ Hup').
Qed.

Lemma list_styles_run_nonempty d :
  reachable d = true ->
  collection d "walletstyle" <> [] ->
  list_styles (Some d)
  = (Ok (Styles (project_id <$> (with_id <$> collection d "walletstyle"))),
     Some d).
Proof.
  intros Hup Hcoll. unfold list_styles, try_except, bind at 1.
  rewrite (get_documents_run _ _ Hup).
  destruct (collection d "walletstyle") as [|record records']; [easy|].
  reflexivity.
Qed.

Lemma list_styles_unavailable s :
  available s = false ->
  list_styles s = (Ok (JSONResponse 500 (str_exn StoreError)), s).
Proof.
  intros Hs. unfold list_styles, try_except, bind at 1, get_documents.
  destruct s as [d|]; [|reflexivity]. simpl in Hs. now rewrite Hs.
Qed.

(** X6: [list_styles] never raises.  On a store that is absent or does not
    answer it returns the response with status 500 whose error text is that
    of the store failure, and leaves the handle as it was. *)
Theorem list_styles_reports_store_failure s :
  (exists r s', list_styles s = (Ok r, s'))
  /\ (available s = false ->
      list_styles s = (Ok (JSONResponse 500 (str_exn StoreError)), s)).
Proof.
  split; [|apply list_styles_unavailable].
  destruct (available s) eqn:Hs.
  - destruct s as [d|]; [|discriminate]. simpl in Hs.
    destruct (collection d "walletstyle") as [|record records'] eqn:Hcoll.
    + eexists _, _. exact (list_styles_run_empty d Hs Hcoll).
    + eexists _, _. apply (list_styles_run_nonempty d Hs). congruence.
  - eexists _, _. exact (list_styles_unavailable s Hs).
Qed.

(** X7: on a reachable store whose catalog is not empty, [list_styles] seeds
    nothing: the store is unchanged and the answer has one record per
    catalog record, in stored order, each the stored record with its
    identifier under ["id"]. *)
Theorem list_styles_nonempty_catalog d :
  reachable d = true ->
  collection d "walletstyle" <> [] ->
  list_styles (Some d)
  = (Ok (Styles (project_id <$> (with_id <$> collection d "walletstyle"))),
     Some d)
  /\ Forall2
       (fun record r =>
          r !! "_id" = None /\ r !! "id" = Some (VStr (oid_hex record.1)))
       (collection d "walletstyle")
       (project_id <$> (with_id <$> collection d "walletstyle")).
Proof.
  intros Hup Hcoll. split; [|apply project_all_ids].
  exact (list_styles_run_nonempty d Hup Hcoll).
Qed.

(** X8: listing is idempotent on a reachable store: whatever a first
    [list_styles] returned, seeding included, a second one on the resulting
    store returns the same answer and changes nothing. *)
Theorem list_styles_idempotent d r s1 :
  reachable d = true ->
  list_styles (Some d) = (r, s1) ->
  list_styles s1 = (r, s1).
Proof.
  intros Hup.
  destruct (collection d "walletstyle") as [|record records'] eqn:Hcoll.
  - destruct (seeding_run d Hup) as (_ & Hup' & Hne & _).
    rewrite (list_styles_run_empty d Hup Hcoll). intros [= <- <-].
    exact (list_styles_run_nonempty _ Hup' Hne).
  - assert (Hne : collection d "walletstyle" <> []) by congruence.
    rewrite (list_styles_run_nonempty d Hup Hne). intros [= <- <-].
    exact (list_styles_run_nonempty d Hup Hne).
Qed.

(** X9: the projection of the identifier touches nothing else: every field
    other than ["_id"] and ["id"] is returned as stored, and a record without
    ["_id"] is returned as it is. *)
Theorem project_id_keeps_fields (s : document) :
  (forall key, key <> "_id" -> key <> "id" -> project_id s !! key = s !! key)
  /\ (s !! "_id" = None -> project_id s = s).
Proof.
  unfold project_id. split.
  - intros key Hraw Hid. destruct (s !! "_id"); [|reflexivity].
    rewrite lookup_insert_ne by congruence. now rewrite lookup_delete_ne.
  - now intros ->.
Qed.

(** ** Uploads, accepted and refused *)

(** [upload_art], case by case. *)
Lemma upload_art_run file s :
  upload_art file s
  = match UploadFile.read file with
    | Raise e => (Raise (HTTPException 400 (str_exn e)), s)
    | Ok content =>
        match UploadFile.filename file with
        | None =>
            (Raise (HTTPException 400
                      (str_exn (ValidationError "Upload" [[LField "filename"]]))),
             s)
        | Some name =>
            let u := {| Upload.filename := name;
                        Upload.content_type :=
                          str_or (UploadFile.content_type file)
                            "application/octet-stream";
                        Upload.size := Z.of_nat (length content);
                        Upload.data_b64 := Base64.b64encode content |} in
            match s with
            | Some d =>
                if reachable d
                then (Ok (oid_hex (insert_one d "upload" (Upload.model_dump u)).1),
                      Some (insert_one d "upload" (Upload.model_dump u)).2)
                else (Raise (HTTPException 400 (str_exn StoreError)), s)
            | None => (Raise (HTTPException 400 (str_exn StoreError)), s)
            end
        end
    end.
Proof.
  unfold upload_art, try_except, bind at 1, lift.
  destruct (UploadFile.read file) as [content|e]; [|reflexivity].
  unfold bind at 1, Upload_validate.
  destruct (UploadFile.filename file) as [name|]; [|reflexivity].
  unfold bind, ret, create_document.
  destruct s as [d|]; [|reflexivity].
  destruct (reachable d); [|reflexivity].
  now destruct (insert_one d "upload" _).
Qed.

(** X10: an upload that is refused is refused with the client error 400 and
    writes nothing, and there are exactly three causes: the file could not be
    read (the error text is that of the read error), the upload came without
    a file name (the text is that of the model's validation error on
    [filename]), or the store is absent or does not answer. *)
Theorem upload_art_refusals file s e s' :
  upload_art file s = (Raise e, s') ->
  s' = s
  /\ exists e0,
      e = HTTPException 400 (str_exn e0)
      /\ (UploadFile.read file = Raise e0
          \/ (UploadFile.filename file = None
              /\ e0 = ValidationError "Upload" [[LField "filename"]])
          \/ (available s = false /\ e0 = StoreError)).
Proof.
  rewrite upload_art_run.
  destruct (UploadFile.read file) as [content|e0].
  - destruct (UploadFile.filename file) as [name|].
    + destruct s as [d|]; [destruct (reachable d) eqn:Hup; [discriminate|]|];
        intros [= <- <-]; (split; [reflexivity|]); exists StoreError; auto.
    + intros [= <- <-]. split; [reflexivity|]. eexists. eauto.
  - intros [= <- <-]. split; [reflexivity|]. exists e0. auto.
Qed.

Lemma string_of_list_ascii_length l :
  String.length (string_of_list_ascii l) = length l.
Proof. induction l as [|c l IH]; [reflexivity|]. simpl. now rewrite IH. Qed.

(** Every three bytes, or rest of one or two bytes, give four characters. *)
Lemma encode_length bs :
  length (Base64.encode bs) = (4 * ((length bs + 2) / 3))%nat.
Proof.
  induction bs as [|b0|b0 b1|b0 b1 b2 rest IH] using list_ind3;
    try reflexivity.
  cbn [Base64.encode length]. rewrite IH.
  replace (S (S (S (length rest))) + 2)%nat with (length rest + 2 + 1 * 3)%nat
    by lia.
  rewrite Nat.div_add by lia. lia.
Qed.

Lemma str_or_not_empty x dflt : dflt <> "" -> str_or x dflt <> "".
Proof. intros Hd. unfold str_or. now destruct x as [[|c s]|]. Qed.

(** X11: an accepted upload files exactly one record, last in the upload
    collection, with the file name as sent, a content type that is the
    declared one or [application/octet-stream] when none or an empty one was
    declared (so never empty), and a payload text of [4 * ceil(N / 3)]
    characters for N bytes; the returned id is the identifier it was filed
    under. *)
Theorem upload_art_stored_record file s id s' :
  upload_art file s = (Ok id, s') ->
  exists d d' content name oid u,
    s = Some d /\ s' = Some d'
    /\ UploadFile.read file = Ok content
    /\ UploadFile.filename file = Some name
    /\ collection d' "upload"
       = (collection d "upload" ++ [(oid, Upload.model_dump u)])%list
    /\ id = oid_hex oid
    /\ Upload.filename u = name
    /\ Upload.content_type u
       = str_or (UploadFile.content_type file) "application/octet-stream"
    /\ Upload.content_type u <> ""
    /\ String.length (Upload.data_b64 u)
       = (4 * ((length content + 2) / 3))%nat.
Proof.
  rewrite upload_art_run.
  destruct (UploadFile.read file) as [content|]; [|discriminate].
  destruct (UploadFile.filename file) as [name|]; [|discriminate].
  destruct s as [d|]; [|discriminate].
  destruct (reachable d); [|discriminate].
  set (u := {| Upload.filename := name;
               Upload.content_type :=
                 str_or (UploadFile.content_type file)
                   "application/octet-stream";
               Upload.size := Z.of_nat (length content);
               Upload.data_b64 := Base64.b64encode content |}).
  intros [= <- <-].
  exists d, (insert_one d "upload" (Upload.model_dump u)).2, content, name,
    (insert_one d "upload" (Upload.model_dump u)).1, u.
  split_conj; try reflexivity.
  - apply collection_insert_one.
  - now apply str_or_not_empty.
  - simpl. unfold Base64.b64encode.
    now rewrite string_of_list_ascii_length, encode_length.
Qed.

Lemma char_of_alphabet n : (n < 64)%N -> Base64.char_of n ∈ Base64.alphabet.
Proof.
  intros Hn. unfold Base64.char_of. apply list_elem_of_In, nth_In.
  change (length Base64.alphabet) with 64%nat. lia.
Qed.

Lemma alphabet_ascii c :
  c ∈ Base64.alphabet \/ c = Base64.pad -> (N_of_ascii c < 128)%N.
Proof.
  intros [Hc| ->]; [|reflexivity].
  assert (Hall : Forall (fun c => (N_of_ascii c < 128)%N) Base64.alphabet)
    by (repeat constructor).
  rewrite Forall_forall in Hall. now apply Hall.
Qed.

Ltac alphabet_chars :=
  repeat first
    [ apply List.Forall_nil
    | apply List.Forall_cons;
      [first [left; now apply char_of_alphabet | now right]|] ].

(** X12: the payload text of an upload is made of the 64 characters of the
    base64 alphabet and the padding character only, all of them ASCII, so
    decoding the encoder's bytes as UTF-8 cannot fail or change them. *)
Theorem b64encode_alphabet content :
  Forall (fun c =>
            (c ∈ Base64.alphabet \/ c = Base64.pad) /\ (N_of_ascii c < 128)%N)
    (list_ascii_of_string (Base64.b64encode content)).
Proof.
  unfold Base64.b64encode. rewrite list_ascii_of_string_of_list_ascii.
  assert (Hchars : Forall (fun c => c ∈ Base64.alphabet \/ c = Base64.pad)
                     (Base64.encode content)).
  { induction content as [|b0|b0 b1|b0 b1 b2 rest IH] using list_ind3.
    - constructor.
    - destruct (group_one _ (byte_bounded b0)) as (H0 & H1 & _).
      cbn [Base64.encode]. alphabet_chars.
    - destruct (group_two _ _ (byte_bounded b0) (byte_bounded b1))
        as (H0 & H1 & H2 & _).
      cbn [Base64.encode]. alphabet_chars.
    - destruct (group_sextets _ _ _ (byte_bounded b0) (byte_bounded b1)
                  (byte_bounded b2)) as (H0 & H1 & H2 & H3 & _).
      cbn [Base64.encode]. alphabet_chars. exact IH. }
  eapply Forall_impl; [exact Hchars|].
  intros c Hc. split; [exact Hc|exact (alphabet_ascii c Hc)].
Qed.

(** ** Product identifiers *)

Lemma is_hex_to_lower c : is_hex (to_lower c) = is_hex c.
Proof. destruct c as [[] [] [] [] [] [] [] []]; reflexivity. Qed.

Lemma is_space_to_lower c : is_space (to_lower c) = is_space c.
Proof. destruct c as [[] [] [] [] [] [] [] []]; reflexivity. Qed.

Lemma to_lower_idempotent c : to_lower (to_lower c) = to_lower c.
Proof. destruct c as [[] [] [] [] [] [] [] []]; reflexivity. Qed.

Lemma is_hex_not_space c : is_hex c = true -> is_space c = false.
Proof. destruct c as [[] [] [] [] [] [] [] []]; (reflexivity || discriminate). Qed.

Lemma string_map_length f s : String.length (string_map f s) = String.length s.
Proof. induction s as [|c s IH]; [reflexivity|]. simpl. now rewrite IH. Qed.

Lemma fromhex_cons c s :
  fromhex (String c s)
  = if is_space c then fromhex s
    else if is_hex c then
      match s with
      | String c' s' =>
          if is_hex c'
          then String (to_lower c) <$> (String (to_lower c') <$> fromhex s')
          else None
      | EmptyString => None
      end
    else None.
Proof. reflexivity. Qed.

(** Reading hexadecimal text does not depend on the case of its letters. *)
Lemma fromhex_to_lower : forall s, fromhex (string_map to_lower s) = fromhex s.
Proof.
  fix IH 1. intros [|c s]; [reflexivity|].
  cbn [string_map]. rewrite !fromhex_cons, is_space_to_lower, is_hex_to_lower.
  destruct (is_space c); [apply IH|].
  destruct (is_hex c); [|reflexivity].
  destruct s as [|c' s']; [reflexivity|].
  cbn [string_map]. rewrite is_hex_to_lower, !to_lower_idempotent.
  destruct (is_hex c'); [|reflexivity]. now rewrite IH.
Qed.

(** Text made of an even number of hexadecimal digits is read as its own
    lower-case form. *)
Lemma fromhex_digits :
  forall s,
    string_forallb is_hex s = true ->
    Nat.even (String.length s) = true ->
    fromhex s = Some (string_map to_lower s).
Proof.
  fix IH 1. intros [|c [|c' s']]; [reflexivity|discriminate|].
  cbn [string_forallb String.length string_map].
  intros [Hc [Hc' Hs']%andb_true_iff]%andb_true_iff Heven.
  rewrite fromhex_cons, (is_hex_not_space c Hc), Hc, Hc'.
  now rewrite (IH s' Hs' Heven).
Qed.

(** An identifier is determined by the lower-case form of its text. *)
Lemma ObjectId_of_str_lower s o :
  ObjectId_of_str s = Ok o <->
  ObjectId_of_str (string_map to_lower s) = Ok o.
Proof.
  unfold ObjectId_of_str. rewrite string_map_length, fromhex_to_lower.
  destruct (_ =? _)%nat; [|split; discriminate].
  destruct (fromhex s); [reflexivity|split; discriminate].
Qed.

(** X13: product ids are matched without regard to letter case.  Two
    product ids that differ only in the case of their letters are parsed to
    the same identifier and refer to the same catalog record; and for a
    product id made of 24 hexadecimal digits, the text of the parsed
    identifier is the lower-case form of the product id and parses back to
    the same identifier. *)
Theorem product_id_case_insensitive :
  (forall s1 s2 o,
      string_map to_lower s1 = string_map to_lower s2 ->
      ObjectId_of_str s1 = Ok o -> ObjectId_of_str s2 = Ok o)
  /\ (forall d s1 s2,
        string_map to_lower s1 = string_map to_lower s2 ->
        catalog_entry d s1 = catalog_entry d s2)
  /\ (forall s o,
        string_forallb is_hex s = true ->
        ObjectId_of_str s = Ok o ->
        oid_hex o = string_map to_lower s
        /\ ObjectId_of_str (oid_hex o) = Ok o).
Proof.
  assert (Hsame : forall s1 s2 o,
             string_map to_lower s1 = string_map to_lower s2 ->
             ObjectId_of_str s1 = Ok o -> ObjectId_of_str s2 = Ok o).
  { intros s1 s2 o Hlower H1.
    apply (proj1 (ObjectId_of_str_lower _ _)) in H1. rewrite Hlower in H1.
    exact (proj2 (ObjectId_of_str_lower _ _) H1). }
  split_conj.
  - exact Hsame.
  - intros d s1 s2 Hlower. unfold catalog_entry.
    destruct (ObjectId_of_str s1) as [o1|e1] eqn:H1.
    + now rewrite (Hsame s1 s2 o1 Hlower H1).
    + destruct (ObjectId_of_str s2) as [o2|e2] eqn:H2; [|reflexivity].
      rewrite (Hsame s2 s1 o2 (eq_sym Hlower) H2) in H1. discriminate.
  - intros s o Hhex Hs.
    assert (Hdigits : oid_hex o = string_map to_lower s).
    { revert Hs. unfold ObjectId_of_str.
      destruct (String.length s =? 24)%nat eqn:Hlen; [|discriminate].
      apply Nat.eqb_eq in Hlen.
      rewrite (fromhex_digits s Hhex) by now rewrite Hlen.
      now intros [= <-]. }
    split; [exact Hdigits|]. rewrite Hdigits.
    exact (proj1 (ObjectId_of_str_lower s o) Hs).
Qed.

(** ** What the diagnostics depend on *)

Lemma test_database_total environ s :
  exists r, test_database environ s = (Ok r, s).
Proof.
  destruct s as [d|]; [|eexists; reflexivity].
  destruct (reachable d) eqn:Hup; eexists;
    unfold test_database, with_local, try_except, bind, on_db, update,
      db_is_not_None, list_collection_names, ret; simpl; rewrite Hup; simpl;
    reflexivity.
Qed.


(** ** The collections the handlers write *)

Lemma create_document_records name data s r s' other :
  create_document name data s = (r, s') ->
  other <> name ->
  records s' other = records s other.
Proof.
  unfold create_document. destruct s as [d|]; [|now intros [= _ <-]].
  destruct (reachable d); [|now intros [= _ <-]].
  destruct (insert_one d name (model_dump data)) as [oid d'] eqn:Hins.
  intros [= _ <-] Hother. simpl.
  pose proof (proj2 (insert_one_stored d name (model_dump data)) other Hother)
    as Hsame.
  now rewrite Hins in Hsame.
Qed.

Lemma list_styles_records s r s' other :
  list_styles s = (r, s') ->
  other <> "walletstyle" ->
  records s' other = records s other.
Proof.
  intros Hrun Hother. destruct (available s) eqn:Hs.
  - destruct s as [d|]; [|discriminate]. simpl in Hs.
    destruct (collection d "walletstyle") as [|record records'] eqn:Hcoll.
    + rewrite (list_styles_run_empty d Hs Hcoll) in Hrun.
      injection Hrun as _ <-. simpl.
      now apply (seeding_run d Hs).
    + rewrite (list_styles_run_nonempty d Hs) in Hrun by congruence.
      now injection Hrun as _ <-.
  - rewrite (list_styles_unavailable s Hs) in Hrun. now injection Hrun as _ <-.
Qed.

Lemma checkout_records payload s r s' other :
  checkout payload s = (r, s') ->
  other <> "order" ->
  records s' other = records s other.
Proof.
  intros Hrun Hother. destruct r as [out|e].
  - apply checkout_ok_order in Hrun
      as (d & raw & -> & _ & _ & _ & _ & _ & -> & _).
    simpl. exact (proj2 (insert_one_stored _ _ _) other Hother).
  - now rewrite (checkout_raise _ _ _ _ Hrun).
Qed.

(** X15: every handler writes to its own collection only, and
    [get_schema_info] lists exactly the collections that are written.
    Whatever they return, [list_styles] changes no collection but
    [walletstyle], [upload_art] none but [upload], [checkout] none but
    [order], and [test_database] changes nothing at all. *)
Theorem handlers_write_listed_collections name :
  (forall s r s',
      list_styles s = (r, s') ->
      records s' name <> records s name -> name = "walletstyle")
  /\ (forall file s r s',
        upload_art file s = (r, s') ->
        records s' name <> records s name -> name = "upload")
  /\ (forall payload s r s',
        checkout payload s = (r, s') ->
        records s' name <> records s name -> name = "order")
  /\ (forall environ s r s', test_database environ s = (r, s') -> s' = s)
  /\ (name = "walletstyle" \/ name = "upload" \/ name = "order"
      <-> name ∈ get_schema_info).
Proof.
  split_conj.
  - intros s r s' Hrun Hchanged.
    destruct (decide (name = "walletstyle")) as [|Hother]; [assumption|].
    now destruct Hchanged; apply (list_styles_records _ _ _ _ Hrun).
  - intros file s r s' Hrun Hchanged.
    destruct (decide (name = "upload")) as [|Hother]; [assumption|].
    destruct Hchanged. revert Hrun. rewrite upload_art_run.
    destruct (UploadFile.read file); [|now intros [= _ <-]].
    destruct (UploadFile.filename file); [|now intros [= _ <-]].
    destruct s as [d|]; [|now intros [= _ <-]].
    destruct (reachable d); [|now intros [= _ <-]].
    intros [= _ <-]. simpl. exact (proj2 (insert_one_stored _ _ _) name Hother).
  - intros payload s r s' Hrun Hchanged.
    destruct (decide (name = "order")) as [|Hother]; [assumption|].
    now destruct Hchanged; apply (checkout_records _ _ _ _ _ Hrun).
  - intros environ s r s' Hrun.
    destruct (test_database_total environ s) as (r0 & Hr0).
    rewrite Hr0 in Hrun. now injection Hrun as _ <-.
  - unfold get_schema_info. rewrite !elem_of_cons, elem_of_nil. tauto.
Qed.

(** ** Not-found errors and appended items *)

Lemma checkout_not_found_in_loop payload s message s' :
  checkout payload s = (Raise (HTTPException 404 message), s') ->
  exists acc,
    for_each checkout_item (CheckoutIn.items payload) acc s
    = (Raise (HTTPException 404 message), s')
    /\ acc = ([], zero).
Proof.
  unfold checkout, try_except.
  destruct (checkout_try payload s) as [[out|e0] s1] eqn:Htry; [discriminate|].
  intros Hexcept.
  assert (He0 : e0 = HTTPException 404 message /\ s1 = s').
  { revert Hexcept. unfold checkout_except, raise.
    destruct e0; intros [= <-]; try discriminate. now subst. }
  destruct He0 as [-> ->]. revert Htry. unfold checkout_try, bind at 1.
  destruct (for_each _ _ _ s) as [[[items_full subtotal]|e1] s2] eqn:Hloop.
  - unfold bind at 1, lift.
    destruct (Order_validate _ _ _ _ _ _) as [order|e2] eqn:Hval.
    + unfold bind, ret.
      destruct (create_document _ _ s2) as [[id|e3] s3] eqn:Hcreate;
        [discriminate|].
      intros [= -> _].
      pose proof (create_document_raise_exn _ _ _ _ _ Hcreate). discriminate.
    + intros [= -> _]. now apply Order_validate_raise in Hval.
  - intros [= <- <-]. now exists ([], zero).
Qed.

(** X16: a not-found error is decided by the first item that is missing:
    when a checkout ends in the error 404, the checkout of the same cart with
    any further items appended, and any customer, ends in the very same
    error. *)
Theorem checkout_not_found_stable payload more customer s message s' :
  checkout payload s = (Raise (HTTPException 404 message), s') ->
  checkout {| CheckoutIn.items := (CheckoutIn.items payload ++ more)%list;
              CheckoutIn.customer := customer |} s
  = (Raise (HTTPException 404 message), s').
Proof.
  intros Hraise.
  destruct (checkout_not_found_in_loop _ _ _ _ Hraise) as (acc & Hloop & ->).
  unfold checkout, try_except, checkout_try, bind at 1. cbn [CheckoutIn.items].
  rewrite for_each_app. unfold bind at 1. now rewrite Hloop.
Qed.

(** ** From the listing to the checkout *)

Lemma hex_digit_lower_hex n :
  is_hex (hex_digit n) && Ascii.eqb (to_lower (hex_digit n)) (hex_digit n) = true.
Proof.
  unfold hex_digit. generalize (N.to_nat n). intros i.
  do 16 (destruct i as [|i]; [reflexivity|]). now destruct i.
Qed.

Lemma hex_digits_length k n acc :
  String.length (hex_digits k n acc) = (k + String.length acc)%nat.
Proof.
  revert n acc. induction k as [|k IH]; intros n acc; [reflexivity|].
  cbn [hex_digits]. rewrite IH. simpl. lia.
Qed.

Lemma hex_digits_forallb p k n acc :
  (forall m, p (hex_digit m) = true) ->
  string_forallb p acc = true ->
  string_forallb p (hex_digits k n acc) = true.
Proof.
  intros Hp. revert n acc. induction k as [|k IH]; intros n acc Hacc;
    [exact Hacc|].
  cbn [hex_digits]. apply IH. simpl. now rewrite Hp, Hacc.
Qed.

Lemma string_map_fixed f s :
  string_forallb (fun c => Ascii.eqb (f c) c) s = true -> string_map f s = s.
Proof.
  induction s as [|c s IH]; [reflexivity|]. simpl.
  intros [Hc Hs]%andb_true_iff. apply Ascii.eqb_eq in Hc.
  now rewrite Hc, IH.
Qed.

(** The identifier under which a record is filed is well formed: its text
    parses back to it. *)
Lemma insert_one_id_well_formed d name record :
  ObjectId_of_str (oid_hex (insert_one d name record).1)
  = Ok (insert_one d name record).1.
Proof.
  assert (Hdigit : forall m,
             is_hex (hex_digit m) = true
             /\ Ascii.eqb (to_lower (hex_digit m)) (hex_digit m) = true).
  { intros m. apply andb_true_iff, hex_digit_lower_hex. }
  assert (Hhex : string_forallb is_hex (hex_digits 24 (next_id d) "") = true).
  { apply hex_digits_forallb; [|reflexivity]. intros m. apply Hdigit. }
  assert (Hlow : string_map to_lower (hex_digits 24 (next_id d) "")
                 = hex_digits 24 (next_id d) "").
  { apply string_map_fixed, hex_digits_forallb; [|reflexivity].
    intros m. apply Hdigit. }
  unfold insert_one, ObjectId_of_str. cbn [fst oid_hex].
  rewrite hex_digits_length.
  rewrite (fromhex_digits _ Hhex) by now rewrite hex_digits_length.
  now rewrite Hlow.
Qed.

(** X17: the id that the listing shows for a catalog record is the id that
    the checkout accepts for it: for a record whose identifier is well
    formed, as every identifier generated on filing is, and is not borne by
    an earlier record, [list_styles] returns the identifier's text under
    ["id"], and the checkout's catalog lookup of that text finds this very
    record. *)
Theorem listed_id_resolves d i record :
  reachable d = true ->
  collection d "walletstyle" !! i = Some record ->
  ObjectId_of_str (oid_hex record.1) = Ok record.1 ->
  (forall j earlier,
      collection d "walletstyle" !! j = Some earlier -> (j < i)%nat ->
      earlier.1 <> record.1) ->
  (exists styles r,
      list_styles (Some d) = (Ok (Styles styles), Some d)
      /\ styles !! i = Some r
      /\ r !! "id" = Some (VStr (oid_hex record.1)))
  /\ catalog_entry d (oid_hex record.1) = Some (with_id record)
  /\ forall name fields,
       ObjectId_of_str (oid_hex (insert_one d name fields).1)
       = Ok (insert_one d name fields).1.
Proof.
  intros Hup Hrecord Hwf Hfirst. split_conj.
  - assert (Hne : collection d "walletstyle" <> [])
      by (intros Hnil; now rewrite Hnil in Hrecord).
    eexists _, _. split_conj.
    + exact (list_styles_run_nonempty d Hup Hne).
    + rewrite !list_lookup_fmap, Hrecord. reflexivity.
    + apply project_id_with_id_lookup.
  - unfold catalog_entry. rewrite Hwf.
    assert (Hfind : list_find (fun r => r.1 = record.1)
                      (collection d "walletstyle") = Some (i, record)).
    { apply list_find_Some. split_conj; [exact Hrecord|reflexivity|].
      intros j earlier Hj Hlt. exact (Hfirst j earlier Hj Hlt). }
    now rewrite Hfind.
  - intros name fields. apply insert_one_id_well_formed.
Qed.

End Handlers.

(** ** The theorems at work on the sample data *)

(** C1 on a cart of one wallet priced 59.0: raw subtotal 59.0, total 64.0. *)
Lemma checkout_two_stage_rounding_witness :
  let d := Sample.shop (Sample.wallet (VFloat (of_Z 59))) in
  let items := [Sample.item Sample.wallet_id 1] in
  let order := pending_order items Sample.customer (of_Z 59) five (of_Z 64) in
  let out := {| CheckoutOut.order_id := "000000000000000000000007";
                CheckoutOut.status := "pending";
                CheckoutOut.amount := of_Z 64 |} in
  let s' := Some (insert_one d "order" (Order.model_dump order)).2 in
  checkout Sample.float_of_str Sample.str_exn (Sample.cart items) (Some d)
  = (Ok out, s')
  /\ exists d0 d' raw oid order',
      Some d = Some d0 /\ s' = Some d'
      /\ raw_subtotal Sample.float_of_str d0 items = Some raw
      /\ stored d0 "order" (oid, Order.model_dump order') d'
      /\ Order.subtotal order' = round2 raw
      /\ Order.shipping order' = (if flt raw seventy_five then five else zero)
      /\ Order.total order' = round2 (fadd raw (Order.shipping order'))
      /\ Order.model_dump order' !! "subtotal"
         = Some (VFloat (Order.subtotal order'))
      /\ Order.model_dump order' !! "shipping"
         = Some (VFloat (Order.shipping order'))
      /\ Order.model_dump order' !! "total" = Some (VFloat (Order.total order'))
      /\ CheckoutOut.amount out = Order.total order'.
Proof.
  intros d items order out s'.
  assert (Hok : checkout Sample.float_of_str Sample.str_exn (Sample.cart items)
                  (Some d) = (Ok out, s')) by (vm_compute; reflexivity).
  split; [exact Hok|].
  exact (checkout_two_stage_rounding Sample.float_of_str Sample.str_exn
           (Sample.cart items) (Some d) out s' Hok).
Defined.

(** C3 as the spec words it fails on a wallet priced 0.005: the raw subtotal
    0.005 is stored as 0.01, the total is [round(0.005 + 5.0, 2) = 5.0], and
    [round(0.01 + 5.0, 2)] is 5.01. *)
Lemma total_not_from_rounded_subtotal :
  let d := Sample.shop (Sample.wallet (VFloat (decimal 5 3))) in
  let items := [Sample.item Sample.wallet_id 1] in
  let order := pending_order items Sample.customer (decimal 1 2) five five in
  raw_subtotal Sample.float_of_str d items = Some (decimal 5 3)
  /\ checkout Sample.float_of_str Sample.str_exn (Sample.cart items) (Some d)
     = (Ok {| CheckoutOut.order_id := "000000000000000000000007";
              CheckoutOut.status := "pending";
              CheckoutOut.amount := five |},
        Some (insert_one d "order" (Order.model_dump order)).2)
  /\ round2 (fadd (Order.subtotal order) (Order.shipping order)) = decimal 501 2
  /\ Order.total order
     <> round2 (fadd (Order.subtotal order) (Order.shipping order)).
Proof.
  intros d items order. split_conj; try (vm_compute; reflexivity).
  vm_compute. discriminate.
Qed.

(** The amended C3 on the same wallet priced 0.005. *)
Lemma checkout_total_from_raw_subtotal_witness :
  let d := Sample.shop (Sample.wallet (VFloat (decimal 5 3))) in
  let items := [Sample.item Sample.wallet_id 1] in
  let order := pending_order items Sample.customer (decimal 1 2) five five in
  let out := {| CheckoutOut.order_id := "000000000000000000000007";
                CheckoutOut.status := "pending";
                CheckoutOut.amount := five |} in
  let s' := Some (insert_one d "order" (Order.model_dump order)).2 in
  checkout Sample.float_of_str Sample.str_exn (Sample.cart items) (Some d)
  = (Ok out, s')
  /\ exists d0 d' raw oid order',
      Some d = Some d0 /\ s' = Some d'
      /\ raw_subtotal Sample.float_of_str d0 items = Some raw
      /\ stored d0 "order" (oid, Order.model_dump order') d'
      /\ Order.shipping order' = shipping_for raw
      /\ (flt raw seventy_five = true <-> Order.shipping order' = five)
      /\ Order.total order' = round2 (fadd raw (shipping_for raw))
      /\ (round2 raw = raw ->
          Order.total order'
          = round2 (fadd (Order.subtotal order') (Order.shipping order'))).
Proof.
  intros d items order out s'.
  assert (Hok : checkout Sample.float_of_str Sample.str_exn (Sample.cart items)
                  (Some d) = (Ok out, s')) by (vm_compute; reflexivity).
  split; [exact Hok|].
  exact (checkout_total_from_raw_subtotal Sample.float_of_str Sample.str_exn
           (Sample.cart items) (Some d) out s' Hok).
Defined.

(** C4 on three wallets priced 25.0: the raw subtotal is exactly 75.0. *)
Lemma free_shipping_boundary_witness :
  let d := Sample.shop (Sample.wallet (VFloat (of_Z 25))) in
  let items := [Sample.item Sample.wallet_id 3] in
  let order := pending_order items Sample.customer (of_Z 75) zero (of_Z 75) in
  let out := {| CheckoutOut.order_id := "000000000000000000000007";
                CheckoutOut.status := "pending";
                CheckoutOut.amount := of_Z 75 |} in
  let s' := Some (insert_one d "order" (Order.model_dump order)).2 in
  checkout Sample.float_of_str Sample.str_exn (Sample.cart items) (Some d)
  = (Ok out, s')
  /\ raw_subtotal Sample.float_of_str d items = Some seventy_five
  /\ exists d0 d' raw oid order',
      Some d = Some d0 /\ s' = Some d'
      /\ raw_subtotal Sample.float_of_str d0 items = Some raw
      /\ stored d0 "order" (oid, Order.model_dump order') d'
      /\ (raw = seventy_five -> Order.shipping order' = zero)
      /\ (fle seventy_five raw = true -> Order.shipping order' = zero)
      /\ (flt raw seventy_five = true -> Order.shipping order' = five).
Proof.
  intros d items order out s'.
  assert (Hok : checkout Sample.float_of_str Sample.str_exn (Sample.cart items)
                  (Some d) = (Ok out, s')) by (vm_compute; reflexivity).
  split_conj; [exact Hok|vm_compute; reflexivity|].
  exact (proj1 (free_shipping_boundary Sample.float_of_str Sample.str_exn)
           (Sample.cart items) (Some d) out s' Hok).
Defined.

(** C9 on the empty store. *)
Lemma checkout_empty_cart_witness :
  let order := pending_order [] Sample.customer zero five five in
  reachable Sample.empty_shop = true
  /\ checkout Sample.float_of_str Sample.str_exn (Sample.cart [])
       (Some Sample.empty_shop)
     = (Ok {| CheckoutOut.order_id := "000000000000000000000000";
              CheckoutOut.status := "pending";
              CheckoutOut.amount := five |},
        Some (insert_one Sample.empty_shop "order" (Order.model_dump order)).2).
Proof.
  intros order. split; [reflexivity|].
  exact (proj1 (checkout_empty_cart Sample.float_of_str Sample.str_exn
                  Sample.empty_shop Sample.customer eq_refl)).
Defined.

(** C10 as the spec words it fails on a quantity of 0, and on one too
    large for a float: the catalog record of the item has no price field,
    and the checkout ends in a client error 400, of the order validation or
    of the overflowing conversion, the store unchanged. *)
Lemma missing_price_checkout_fails :
  let d := Sample.shop Sample.unpriced_wallet in
  let prod := with_id (mk_ObjectId Sample.wallet_id, Sample.unpriced_wallet) in
  let run q :=
    checkout Sample.float_of_str Sample.str_exn
      (Sample.cart [Sample.item Sample.wallet_id q]) (Some d) in
  catalog_entry d Sample.wallet_id = Some prod
  /\ prod !! "price" = None
  /\ run 0
     = (Raise (HTTPException 400
                 (Sample.str_exn
                    (ValidationError "Order"
                       [[LField "items"; LIndex 0; LField "quantity"]]))),
        Some d)
  /\ float_of_int (2 ^ 1024) = Raise OverflowError
  /\ line_price Sample.float_of_str d (Sample.item Sample.wallet_id (2 ^ 1024))
     = None
  /\ run (2 ^ 1024)
     = (Raise (HTTPException 400 (Sample.str_exn OverflowError)), Some d).
Proof.
  intros d prod run. split_conj; vm_compute; reflexivity.
Qed.

(** The amended C10 on a catalog record without a price, bought twice, and
    not at all. *)
Lemma checkout_missing_price_witness :
  let d := Sample.shop Sample.unpriced_wallet in
  let prod := with_id (mk_ObjectId Sample.wallet_id, Sample.unpriced_wallet) in
  let item := Sample.item Sample.wallet_id 2 in
  let none := Sample.item Sample.wallet_id 0 in
  let order := pending_order [item] Sample.customer zero five five in
  reachable d = true
  /\ catalog_entry d Sample.wallet_id = Some prod
  /\ prod !! "price" = None
  /\ unit_price Sample.float_of_str prod = Some zero
  /\ float_of_int (CartItemIn.quantity item) = Ok (of_Z 2)
  /\ (exists sgn,
        line_price Sample.float_of_str d item = Some (S754_zero sgn)
        /\ forall items_full subtotal,
            checkout_item Sample.float_of_str item (items_full, subtotal)
              (Some d)
            = (Ok ((items_full ++
                      [ {| ItemFull.product_id := Sample.wallet_id;
                           ItemFull.title := dict_get prod "title" VNone;
                           ItemFull.price_each := zero;
                           ItemFull.quantity := 2;
                           ItemFull.finish := Some "Gunmetal";
                           ItemFull.engraving_text := None;
                           ItemFull.upload_id := None |} ])%list,
                   fadd subtotal (S754_zero sgn)), Some d)
            /\ (subtotal <> S754_zero true ->
                fadd subtotal (S754_zero sgn) = subtotal))
  /\ 1 <= CartItemIn.quantity item < 2 ^ 63
  /\ checkout Sample.float_of_str Sample.str_exn (Sample.cart [item]) (Some d)
     = (Ok {| CheckoutOut.order_id :=
                oid_hex (insert_one d "order" (Order.model_dump order)).1;
              CheckoutOut.status := "pending";
              CheckoutOut.amount := five |},
        Some (insert_one d "order" (Order.model_dump order)).2)
  /\ CartItemIn.quantity none <= 0
  /\ exists e,
      checkout Sample.float_of_str Sample.str_exn (Sample.cart [none]) (Some d)
      = (Raise (HTTPException 400 (Sample.str_exn e)), Some d).
Proof.
  intros d prod item none order.
  assert (Hup : reachable d = true) by reflexivity.
  assert (Hprod : forall q,
             catalog_entry d
               (CartItemIn.product_id (Sample.item Sample.wallet_id q))
             = Some prod)
    by (intros q; vm_compute; reflexivity).
  assert (Hprice : prod !! "price" = None) by (vm_compute; reflexivity).
  assert (Hq : float_of_int (CartItemIn.quantity item) = Ok (of_Z 2))
    by (vm_compute; reflexivity).
  assert (Hqty : 1 <= CartItemIn.quantity item < 2 ^ 63) by (simpl; lia).
  assert (Hnone : CartItemIn.quantity none <= 0) by (simpl; lia).
  pose proof (checkout_missing_price Sample.float_of_str Sample.str_exn
                d item Sample.customer prod Hup (Hprod 2) Hprice)
    as (Hunit & _ & Hline & Hok & _).
  pose proof (checkout_missing_price Sample.float_of_str Sample.str_exn
                d none Sample.customer prod Hup (Hprod 0) Hprice)
    as (_ & _ & _ & _ & Hfail).
  split_conj; try assumption; try apply Hqty.
  - exact (Hprod 2).
  - exact (Hline _ Hq).
  - exact (Hok Hqty).
  - exact (Hfail Hnone).
Defined.



(** C2 as the spec words it fails on the product id ["abc"]: no catalog
    record has that id, and the checkout ends in the client error 400 raised
    for the malformed identifier, not in the not-found error.  So it does
    for a product id missing from the catalog of a store that does not
    answer, and for one that comes after an item whose quantity is too large
    for a float. *)
Lemma malformed_product_id_is_not_not_found :
  let d := Sample.shop (Sample.wallet (VFloat (of_Z 59))) in
  let run :=
    checkout Sample.float_of_str Sample.str_exn
      (Sample.cart [Sample.item "abc" 1]) (Some d) in
  catalog_entry d "abc" = None
  /\ run = (Raise (HTTPException 400 (Sample.str_exn (InvalidId "abc"))), Some d)
  /\ run <> (Raise (HTTPException 404 "Product not found: abc"), Some d)
  /\ catalog_entry Sample.unreachable_shop Sample.other_id = None
  /\ checkout Sample.float_of_str Sample.str_exn
       (Sample.cart [Sample.item Sample.other_id 1])
       (Some Sample.unreachable_shop)
     = (Raise (HTTPException 400 (Sample.str_exn StoreError)),
        Some Sample.unreachable_shop)
  /\ catalog_entry d Sample.other_id = None
  /\ checkout Sample.float_of_str Sample.str_exn
       (Sample.cart [Sample.item Sample.wallet_id (2 ^ 1024);
                     Sample.item Sample.other_id 1])
       (Some d)
     = (Raise (HTTPException 400 (Sample.str_exn OverflowError)), Some d).
Proof.
  intros d run. split_conj; try (vm_compute; reflexivity).
  vm_compute. discriminate.
Qed.

(** The amended C2 on a cart whose second item names a product id that the
    catalog does not hold: one of 24 hexadecimal digits, one of 22 digits
    followed by two spaces, which [ObjectId] accepts as well, and ["abc"],
    which it rejects. *)
Lemma checkout_missing_product_witness :
  let d := Sample.shop (Sample.wallet (VFloat (of_Z 59))) in
  let payload pid :=
    Sample.cart [Sample.item Sample.wallet_id 1; Sample.item pid 1] in
  let padded := "507f1f77bcf86cd7994390  " in
  reachable d = true
  /\ mapM (line_price Sample.float_of_str d)
       (take 1 [Sample.item Sample.wallet_id 1])
     = Some [of_Z 59]
  /\ ObjectId_of_str Sample.other_id = Ok (mk_ObjectId Sample.other_id)
  /\ catalog_entry d Sample.other_id = None
  /\ checkout Sample.float_of_str Sample.str_exn (payload Sample.other_id)
       (Some d)
     = (Raise (HTTPException 404
                 "Product not found: 507f1f77bcf86cd799439012"),
        Some d)
  /\ ObjectId_of_str padded = Ok (mk_ObjectId "507f1f77bcf86cd7994390")
  /\ catalog_entry d padded = None
  /\ checkout Sample.float_of_str Sample.str_exn (payload padded) (Some d)
     = (Raise (HTTPException 404
                 "Product not found: 507f1f77bcf86cd7994390  "),
        Some d)
  /\ ObjectId_of_str "abc" = Raise (InvalidId "abc")
  /\ catalog_entry d "abc" = None
  /\ checkout Sample.float_of_str Sample.str_exn (payload "abc") (Some d)
     = (Raise (HTTPException 400 (Sample.str_exn (InvalidId "abc"))), Some d).
Proof.
  intros d payload padded.
  assert (Hup : reachable d = true) by reflexivity.
  assert (Hitem : forall pid,
             CheckoutIn.items (payload pid) !! 1%nat = Some (Sample.item pid 1))
    by reflexivity.
  assert (Hprices : forall pid,
             mapM (line_price Sample.float_of_str d)
               (take 1 (CheckoutIn.items (payload pid)))
             = Some [of_Z 59])
    by (intros pid; vm_compute; reflexivity).
  assert (Hoid1 : ObjectId_of_str Sample.other_id
                  = Ok (mk_ObjectId Sample.other_id))
    by (vm_compute; reflexivity).
  assert (Hnone1 : catalog_entry d Sample.other_id = None)
    by (vm_compute; reflexivity).
  assert (Hoid2 : ObjectId_of_str padded
                  = Ok (mk_ObjectId "507f1f77bcf86cd7994390"))
    by (vm_compute; reflexivity).
  assert (Hnone2 : catalog_entry d padded = None) by (vm_compute; reflexivity).
  assert (Hoid3 : ObjectId_of_str "abc" = Raise (InvalidId "abc"))
    by (vm_compute; reflexivity).
  assert (Hnone3 : catalog_entry d "abc" = None) by (vm_compute; reflexivity).
  split_conj; try assumption.
  - exact (Hprices Sample.other_id).
  - exact (proj1 (proj1 (checkout_missing_product Sample.float_of_str
                           Sample.str_exn (payload Sample.other_id))
                    d 1%nat (Sample.item Sample.other_id 1) _
                    Hup (Hitem _) (Hprices _) Hnone1)
             _ Hoid1).
  - exact (proj1 (proj1 (checkout_missing_product Sample.float_of_str
                           Sample.str_exn (payload padded))
                    d 1%nat (Sample.item padded 1) _
                    Hup (Hitem _) (Hprices _) Hnone2)
             _ Hoid2).
  - exact (proj2 (proj2 (proj1 (checkout_missing_product Sample.float_of_str
                                  Sample.str_exn (payload "abc"))
                           d 1%nat (Sample.item "abc" 1) _
                           Hup (Hitem _) (Hprices _) Hnone3)
                    _ Hoid3)).
Defined.

(** C8 as the spec words it fails on a store that is configured but does
    not answer: the collection listing raises, yet the response says
    connected and lists no collections, exactly as for a store that answers
    and holds nothing; no status string of the response shows the failure. *)
Lemma unanswering_store_is_not_surfaced :
  let environ : gmap string string :=
    {[ "DATABASE_URL" := "mongodb://db:27017" ]} in
  let r :=
    {| Diagnostics.backend := "✅ Running";
       Diagnostics.database := "✅ Connected";
       Diagnostics.database_url := Some "✅ Set";
       Diagnostics.database_name := Some "❌ Not Set";
       Diagnostics.connection_status := "Not Connected";
       Diagnostics.collections := [] |} in
  list_collection_names (Some Sample.unreachable_shop)
  = (Raise StoreError, Some Sample.unreachable_shop)
  /\ test_database Sample.str_exn environ (Some Sample.unreachable_shop)
     = (Ok r, Some Sample.unreachable_shop)
  /\ test_database Sample.str_exn environ (Some Sample.empty_shop)
     = (Ok r, Some Sample.empty_shop).
Proof.
  intros environ r. split_conj; reflexivity.
Qed.

(** The amended C8 on a store that does not answer and one that answers and
    is empty. *)
Lemma test_database_never_raises_witness :
  let environ : gmap string string :=
    {[ "DATABASE_URL" := "mongodb://db:27017" ]} in
  reachable Sample.unreachable_shop = false
  /\ reachable Sample.empty_shop = true
  /\ collections Sample.empty_shop = ∅
  /\ exists r,
      list_collection_names (Some Sample.unreachable_shop)
      = (Raise StoreError, Some Sample.unreachable_shop)
      /\ test_database Sample.str_exn environ (Some Sample.unreachable_shop)
         = (Ok r, Some Sample.unreachable_shop)
      /\ test_database Sample.str_exn environ (Some Sample.empty_shop)
         = (Ok r, Some Sample.empty_shop)
      /\ Diagnostics.database r = "✅ Connected"
      /\ Diagnostics.collections r = [].
Proof.
  intros environ.
  assert (Hdown : reachable Sample.unreachable_shop = false) by reflexivity.
  assert (Hup : reachable Sample.empty_shop = true) by reflexivity.
  assert (Hempty : collections Sample.empty_shop = ∅) by reflexivity.
  split_conj; [exact Hdown|exact Hup|exact Hempty|].
  exact (proj2 (test_database_never_raises Sample.str_exn environ)
           Sample.unreachable_shop Sample.empty_shop Hdown Hup Hempty).
Defined.

(** C5 on the empty store: three styles come back, each with its ["id"]. *)
Lemma list_styles_seeds_and_projects_ids_witness :
  reachable Sample.empty_shop = true
  /\ collection Sample.empty_shop "walletstyle" = []
  /\ exists oid1 oid2 oid3 d',
      list_styles Sample.str_exn Sample.str_other (Some Sample.empty_shop)
      = (Ok (Styles
               (zip_with
                  (fun oid s =>
                     <["id" := VStr (oid_hex oid)]> (WalletStyle.model_dump s))
                  [oid1; oid2; oid3] seeds)),
         Some d')
      /\ collection d' "walletstyle"
         = zip [oid1; oid2; oid3] (WalletStyle.model_dump <$> seeds)
      /\ WalletStyle.title <$> seeds
         = ["Carbon Fiber Slim Wallet"; "Aluminum Slim Wallet";
            "Titanium Slim Wallet"].
Proof.
  split_conj; [reflexivity..|].
  exact (proj1 (list_styles_seeds_and_projects_ids Sample.str_exn
                  Sample.str_other)
           Sample.empty_shop eq_refl eq_refl).
Defined.

(** C6 on a four-byte file. *)
Lemma upload_size_and_round_trip_witness :
  let file := Sample.artwork in
  let u := {| Upload.filename := "logo.png";
              Upload.content_type := "image/png";
              Upload.size := 4;
              Upload.data_b64 := "UE5HIQ==" |} in
  let s' := Some (insert_one Sample.empty_shop "upload" (Upload.model_dump u)).2 in
  upload_art Sample.str_exn file (Some Sample.empty_shop)
  = (Ok "000000000000000000000000", s')
  /\ exists d d' content oid u',
      Some Sample.empty_shop = Some d /\ s' = Some d'
      /\ UploadFile.read file = Ok content
      /\ stored d "upload" (oid, Upload.model_dump u') d'
      /\ "000000000000000000000000" = oid_hex oid
      /\ Upload.size u' = Z.of_nat (length content)
      /\ Base64.b64decode (Upload.data_b64 u') = Some content
      /\ Upload.model_dump u' !! "size"
         = Some (VInt (Z.of_nat (length content)))
      /\ Upload.model_dump u' !! "data_b64"
         = Some (VStr (Base64.b64encode content)).
Proof.
  intros file u s'.
  assert (Hok : upload_art Sample.str_exn file (Some Sample.empty_shop)
                = (Ok "000000000000000000000000", s'))
    by (vm_compute; reflexivity).
  split; [exact Hok|].
  exact (proj1 (upload_size_and_round_trip Sample.str_exn)
           file (Some Sample.empty_shop) _ s' Hok).
Defined.

(** ** The further theorems at work on the sample data *)

(** X1 on a cart naming a product the catalog does not hold. *)
Lemma checkout_failure_is_client_error_witness :
  let d := Sample.shop (Sample.wallet (VFloat (of_Z 59))) in
  let payload := Sample.cart [Sample.item Sample.other_id 1] in
  let e := HTTPException 404 "Product not found: 507f1f77bcf86cd799439012" in
  checkout Sample.float_of_str Sample.str_exn payload (Some d)
  = (Raise e, Some d)
  /\ Some d = Some d
  /\ ((exists e0, is_http e0 = false
                  /\ e = HTTPException 400 (Sample.str_exn e0))
      \/ exists item,
          item ∈ CheckoutIn.items payload
          /\ e = HTTPException 404
                   ("Product not found: " ++ CartItemIn.product_id item)).
Proof.
  intros d payload e.
  assert (Hraise : checkout Sample.float_of_str Sample.str_exn payload (Some d)
                   = (Raise e, Some d)) by (vm_compute; reflexivity).
  split; [exact Hraise|].
  exact (checkout_failure_is_client_error Sample.float_of_str Sample.str_exn
           payload (Some d) e (Some d) Hraise).
Defined.

(** X2 on a store that does not answer. *)
Lemma checkout_unavailable_store_witness :
  let payload := Sample.cart [Sample.item Sample.wallet_id 1] in
  available (Some Sample.unreachable_shop) = false
  /\ exists e0,
      is_http e0 = false
      /\ checkout Sample.float_of_str Sample.str_exn payload
           (Some Sample.unreachable_shop)
         = (Raise (HTTPException 400 (Sample.str_exn e0)),
            Some Sample.unreachable_shop).
Proof.
  intros payload. split; [reflexivity|].
  exact (checkout_unavailable_store Sample.float_of_str Sample.str_exn payload
           (Some Sample.unreachable_shop) eq_refl).
Defined.

(** X3 on a cart of one wallet priced 59.0. *)
Lemma checkout_files_cart_as_order_witness :
  let d := Sample.shop (Sample.wallet (VFloat (of_Z 59))) in
  let payload := Sample.cart [Sample.item Sample.wallet_id 1] in
  let out := {| CheckoutOut.order_id := "000000000000000000000007";
                CheckoutOut.status := "pending";
                CheckoutOut.amount := of_Z 64 |} in
  let s' :=
    Some (insert_one d "order"
            (Order.model_dump
               (pending_order (CheckoutIn.items payload) Sample.customer
                  (of_Z 59) five (of_Z 64)))).2 in
  checkout Sample.float_of_str Sample.str_exn payload (Some d) = (Ok out, s')
  /\ exists d0 raw,
      Some d = Some d0
      /\ raw_subtotal Sample.float_of_str d0 (CheckoutIn.items payload)
         = Some raw
      /\ let order :=
           pending_order (CheckoutIn.items payload)
             (CheckoutIn.customer payload)
             (round2 raw) (shipping_for raw)
             (round2 (fadd raw (shipping_for raw))) in
         s' = Some (insert_one d0 "order" (Order.model_dump order)).2
         /\ CheckoutOut.order_id out
            = oid_hex (insert_one d0 "order" (Order.model_dump order)).1
         /\ CheckoutOut.status out = "pending"
         /\ CheckoutOut.amount out = Order.total order
         /\ length (Order.items order) = length (CheckoutIn.items payload)
         /\ Forall (fun c =>
                      CartItem.model_dump c !! "title" = None
                      /\ CartItem.model_dump c !! "price_each" = None)
              (Order.items order).
Proof.
  intros d payload out s'.
  assert (Hok : checkout Sample.float_of_str Sample.str_exn payload (Some d)
                = (Ok out, s')) by (vm_compute; reflexivity).
  split; [exact Hok|].
  exact (checkout_files_cart_as_order Sample.float_of_str Sample.str_exn
           payload (Some d) out s' Hok).
Defined.

(** X4 on a cart of two wallets priced 59.0. *)
Lemma checkout_succeeds_only_if_witness :
  let d := Sample.shop (Sample.wallet (VFloat (of_Z 59))) in
  let payload := Sample.cart [Sample.item Sample.wallet_id 2] in
  let out := {| CheckoutOut.order_id := "000000000000000000000007";
                CheckoutOut.status := "pending";
                CheckoutOut.amount := of_Z 118 |} in
  let s' :=
    Some (insert_one d "order"
            (Order.model_dump
               (pending_order (CheckoutIn.items payload) Sample.customer
                  (of_Z 118) zero (of_Z 118)))).2 in
  checkout Sample.float_of_str Sample.str_exn payload (Some d) = (Ok out, s')
  /\ exists d0 raw,
      Some d = Some d0 /\ reachable d0 = true
      /\ raw_subtotal Sample.float_of_str d0 (CheckoutIn.items payload)
         = Some raw
      /\ Forall (fun item => 1 <= CartItemIn.quantity item)
           (CheckoutIn.items payload)
      /\ Forall (fun item =>
                   is_Some (catalog_entry d0 (CartItemIn.product_id item)))
           (CheckoutIn.items payload)
      /\ fle zero (round2 raw) = true
      /\ fle zero (round2 (fadd raw (shipping_for raw))) = true.
Proof.
  intros d payload out s'.
  assert (Hok : checkout Sample.float_of_str Sample.str_exn payload (Some d)
                = (Ok out, s')) by (vm_compute; reflexivity).
  split; [exact Hok|].
  exact (checkout_succeeds_only_if Sample.float_of_str Sample.str_exn
           payload (Some d) out s' Hok).
Defined.

(** X5 on two carts for the same wallet that differ in finish, engraving
    text and customer. *)
Lemma checkout_amount_from_catalog_witness :
  let d := Sample.shop (Sample.wallet (VFloat (of_Z 59))) in
  let payload1 := Sample.cart [Sample.item Sample.wallet_id 1] in
  let payload2 :=
    {| CheckoutIn.items :=
         [ {| CartItemIn.product_id := Sample.wallet_id;
              CartItemIn.quantity := 1;
              CartItemIn.finish := Some "Silver";
              CartItemIn.engraving_text := Some "A.L.";
              CartItemIn.upload_id := None |} ];
       CheckoutIn.customer :=
         {| CustomerIn.name := "Charles Babbage";
            CustomerIn.email := "cb@example.org";
            CustomerIn.address_line1 := "1 Dorset Street";
            CustomerIn.address_line2 := Some "Marylebone";
            CustomerIn.city := "London";
            CustomerIn.state := "LND";
            CustomerIn.postal_code := "W1";
            CustomerIn.country := "GB" |} |} in
  let out1 := {| CheckoutOut.order_id := "000000000000000000000007";
                 CheckoutOut.status := "pending";
                 CheckoutOut.amount := of_Z 64 |} in
  let s1 :=
    Some (insert_one d "order"
            (Order.model_dump
               (pending_order (CheckoutIn.items payload1) Sample.customer
                  (of_Z 59) five (of_Z 64)))).2 in
  priced_fields <$> CheckoutIn.items payload1
  = priced_fields <$> CheckoutIn.items payload2
  /\ checkout Sample.float_of_str Sample.str_exn payload1 (Some d)
     = (Ok out1, s1)
  /\ exists out2 s2,
      checkout Sample.float_of_str Sample.str_exn payload2 (Some d)
      = (Ok out2, s2)
      /\ CheckoutOut.amount out2 = CheckoutOut.amount out1
      /\ CheckoutOut.order_id out2 = CheckoutOut.order_id out1.
Proof.
  intros d payload1 payload2 out1 s1.
  assert (Hfields : priced_fields <$> CheckoutIn.items payload1
                    = priced_fields <$> CheckoutIn.items payload2)
    by reflexivity.
  assert (Hok : checkout Sample.float_of_str Sample.str_exn payload1 (Some d)
                = (Ok out1, s1)) by (vm_compute; reflexivity).
  split_conj; [exact Hfields|exact Hok|].
  exact (checkout_amount_from_catalog Sample.float_of_str Sample.str_exn
           payload1 payload2 (Some d) out1 s1 Hfields Hok).
Defined.

(** X6 on a store that does not answer. *)
Lemma list_styles_reports_store_failure_witness :
  available (Some Sample.unreachable_shop) = false
  /\ list_styles Sample.str_exn Sample.str_other (Some Sample.unreachable_shop)
     = (Ok (JSONResponse 500 (Sample.str_exn StoreError)),
        Some Sample.unreachable_shop).
Proof.
  split; [reflexivity|].
  exact (proj2 (list_styles_reports_store_failure Sample.str_exn
                  Sample.str_other (Some Sample.unreachable_shop)) eq_refl).
Defined.

(** X7 on a catalog of one wallet. *)
Lemma list_styles_nonempty_catalog_witness :
  let d := Sample.shop (Sample.wallet (VFloat (of_Z 59))) in
  reachable d = true
  /\ collection d "walletstyle" <> []
  /\ list_styles Sample.str_exn Sample.str_other (Some d)
     = (Ok (Styles (project_id Sample.str_other
                      <$> (with_id <$> collection d "walletstyle"))),
        Some d).
Proof.
  intros d.
  assert (Hne : collection d "walletstyle" <> [])
    by (intros Hnil; vm_compute in Hnil; discriminate).
  split_conj; [reflexivity|exact Hne|].
  exact (proj1 (list_styles_nonempty_catalog Sample.str_exn Sample.str_other
                  d eq_refl Hne)).
Defined.

(** X8 on the empty store: the second listing repeats the seeded answer. *)
Lemma list_styles_idempotent_witness :
  let r := Ok (Styles (project_id Sample.str_other
                         <$> (with_id
                                <$> collection (seeded Sample.empty_shop)
                                      "walletstyle"))) in
  let s1 := Some (seeded Sample.empty_shop) in
  reachable Sample.empty_shop = true
  /\ list_styles Sample.str_exn Sample.str_other (Some Sample.empty_shop)
     = (r, s1)
  /\ list_styles Sample.str_exn Sample.str_other s1 = (r, s1).
Proof.
  intros r s1.
  assert (Hfirst : list_styles Sample.str_exn Sample.str_other
                     (Some Sample.empty_shop) = (r, s1))
    by (vm_compute; reflexivity).
  split_conj; [reflexivity|exact Hfirst|].
  exact (list_styles_idempotent Sample.str_exn Sample.str_other
           Sample.empty_shop r s1 eq_refl Hfirst).
Defined.

(** X9 on the title of a stored wallet. *)
Lemma project_id_keeps_fields_witness :
  let s := with_id (mk_ObjectId Sample.wallet_id,
                    Sample.wallet (VFloat (of_Z 59))) in
  "title" <> "_id" /\ "title" <> "id"
  /\ project_id Sample.str_other s !! "title" = s !! "title".
Proof.
  intros s.
  assert (Hraw : "title" <> "_id") by discriminate.
  assert (Hid : "title" <> "id") by discriminate.
  split_conj; [exact Hraw|exact Hid|].
  exact (proj1 (project_id_keeps_fields Sample.str_other s) "title" Hraw Hid).
Defined.

(** X10 on an upload that comes without a file name. *)
Lemma upload_art_refusals_witness :
  let file := {| UploadFile.filename := None;
                 UploadFile.content_type := Some "image/png";
                 UploadFile.read := Ok (list_byte_of_string "PNG!") |} in
  let s := Some Sample.empty_shop in
  let e := HTTPException 400
             (Sample.str_exn
                (ValidationError "Upload" [[LField "filename"]])) in
  upload_art Sample.str_exn file s = (Raise e, s)
  /\ s = s
  /\ exists e0,
      e = HTTPException 400 (Sample.str_exn e0)
      /\ (UploadFile.read file = Raise e0
          \/ (UploadFile.filename file = None
              /\ e0 = ValidationError "Upload" [[LField "filename"]])
          \/ (available s = false /\ e0 = StoreError)).
Proof.
  intros file s e.
  assert (Hraise : upload_art Sample.str_exn file s = (Raise e, s))
    by reflexivity.
  split; [exact Hraise|].
  exact (upload_art_refusals Sample.str_exn file s e s Hraise).
Defined.

(** X11 on a four-byte file. *)
Lemma upload_art_stored_record_witness :
  let u := {| Upload.filename := "logo.png";
              Upload.content_type := "image/png";
              Upload.size := 4;
              Upload.data_b64 := "UE5HIQ==" |} in
  let s' := Some (insert_one Sample.empty_shop "upload" (Upload.model_dump u)).2 in
  upload_art Sample.str_exn Sample.artwork (Some Sample.empty_shop)
  = (Ok "000000000000000000000000", s')
  /\ exists d d' content name oid u',
      Some Sample.empty_shop = Some d /\ s' = Some d'
      /\ UploadFile.read Sample.artwork = Ok content
      /\ UploadFile.filename Sample.artwork = Some name
      /\ collection d' "upload"
         = (collection d "upload" ++ [(oid, Upload.model_dump u')])%list
      /\ "000000000000000000000000" = oid_hex oid
      /\ Upload.filename u' = name
      /\ Upload.content_type u'
         = str_or (UploadFile.content_type Sample.artwork)
             "application/octet-stream"
      /\ Upload.content_type u' <> ""
      /\ String.length (Upload.data_b64 u')
         = (4 * ((length content + 2) / 3))%nat.
Proof.
  intros u s'.
  assert (Hok : upload_art Sample.str_exn Sample.artwork
                  (Some Sample.empty_shop)
                = (Ok "000000000000000000000000", s'))
    by (vm_compute; reflexivity).
  split; [exact Hok|].
  exact (upload_art_stored_record Sample.str_exn Sample.artwork
           (Some Sample.empty_shop) _ s' Hok).
Defined.

(** X13 on the wallet's id written in capitals. *)
Lemma product_id_case_insensitive_witness :
  let d := Sample.shop (Sample.wallet (VFloat (of_Z 59))) in
  string_map to_lower "507F1F77BCF86CD799439011"
  = string_map to_lower Sample.wallet_id
  /\ ObjectId_of_str "507F1F77BCF86CD799439011"
     = Ok (mk_ObjectId Sample.wallet_id)
  /\ string_forallb is_hex "507F1F77BCF86CD799439011" = true
  /\ ObjectId_of_str Sample.wallet_id = Ok (mk_ObjectId Sample.wallet_id)
  /\ catalog_entry d "507F1F77BCF86CD799439011"
     = catalog_entry d Sample.wallet_id
  /\ ObjectId_of_str (oid_hex (mk_ObjectId Sample.wallet_id))
     = Ok (mk_ObjectId Sample.wallet_id).
Proof.
  intros d.
  assert (Hlower : string_map to_lower "507F1F77BCF86CD799439011"
                   = string_map to_lower Sample.wallet_id) by reflexivity.
  assert (Hparse : ObjectId_of_str "507F1F77BCF86CD799439011"
                   = Ok (mk_ObjectId Sample.wallet_id)) by reflexivity.
  assert (Hhex : string_forallb is_hex "507F1F77BCF86CD799439011" = true)
    by reflexivity.
  split_conj; [exact Hlower|exact Hparse|exact Hhex|..].
  - exact (proj1 product_id_case_insensitive _ _ _ Hlower Hparse).
  - exact (proj1 (proj2 product_id_case_insensitive) d _ _ Hlower).
  - exact (proj2 (proj2 (proj2 product_id_case_insensitive) _ _ Hhex Hparse)).
Defined.


(** X15 on the checkout of an empty cart, which changes the order
    collection. *)
Lemma handlers_write_listed_collections_witness :
  let s := Some Sample.empty_shop in
  let order := pending_order [] Sample.customer zero five five in
  let r := Ok {| CheckoutOut.order_id := "000000000000000000000000";
                 CheckoutOut.status := "pending";
                 CheckoutOut.amount := five |} in
  let s' := Some (insert_one Sample.empty_shop "order"
                    (Order.model_dump order)).2 in
  checkout Sample.float_of_str Sample.str_exn (Sample.cart []) s = (r, s')
  /\ records s' "order" <> records s "order"
  /\ "order" = "order".
Proof.
  intros s order r s'.
  assert (Hrun : checkout Sample.float_of_str Sample.str_exn (Sample.cart []) s
                 = (r, s')) by (vm_compute; reflexivity).
  assert (Hchanged : records s' "order" <> records s "order")
    by (intros Hsame; vm_compute in Hsame; discriminate).
  split_conj; [exact Hrun|exact Hchanged|].
  exact (proj1 (proj2 (proj2 (handlers_write_listed_collections
                                Sample.float_of_str Sample.str_exn
                                Sample.str_other "order")))
           (Sample.cart []) s r s' Hrun Hchanged).
Defined.

(** X16 on a cart whose only item is missing, with a wallet appended. *)
Lemma checkout_not_found_stable_witness :
  let d := Sample.shop (Sample.wallet (VFloat (of_Z 59))) in
  let payload := Sample.cart [Sample.item Sample.other_id 1] in
  let message := "Product not found: 507f1f77bcf86cd799439012" in
  checkout Sample.float_of_str Sample.str_exn payload (Some d)
  = (Raise (HTTPException 404 message), Some d)
  /\ checkout Sample.float_of_str Sample.str_exn
       {| CheckoutIn.items :=
            (CheckoutIn.items payload ++ [Sample.item Sample.wallet_id 1])%list;
          CheckoutIn.customer := Sample.customer |} (Some d)
     = (Raise (HTTPException 404 message), Some d).
Proof.
  intros d payload message.
  assert (Hraise : checkout Sample.float_of_str Sample.str_exn payload (Some d)
                   = (Raise (HTTPException 404 message), Some d))
    by (vm_compute; reflexivity).
  split; [exact Hraise|].
  exact (checkout_not_found_stable Sample.float_of_str Sample.str_exn payload
           [Sample.item Sample.wallet_id 1] Sample.customer (Some d) message
           (Some d) Hraise).
Defined.

(** X17 on a catalog of one wallet. *)
Lemma listed_id_resolves_witness :
  let d := Sample.shop (Sample.wallet (VFloat (of_Z 59))) in
  let record := (mk_ObjectId Sample.wallet_id,
                 Sample.wallet (VFloat (of_Z 59))) in
  reachable d = true
  /\ collection d "walletstyle" !! 0%nat = Some record
  /\ ObjectId_of_str (oid_hex record.1) = Ok record.1
  /\ (forall j earlier,
         collection d "walletstyle" !! j = Some earlier -> (j < 0)%nat ->
         earlier.1 <> record.1)
  /\ catalog_entry d (oid_hex record.1) = Some (with_id record).
Proof.
  intros d record.
  assert (Hrecord : collection d "walletstyle" !! 0%nat = Some record)
    by reflexivity.
  assert (Hwf : ObjectId_of_str (oid_hex record.1) = Ok record.1)
    by reflexivity.
  assert (Hfirst : forall j earlier,
             collection d "walletstyle" !! j = Some earlier -> (j < 0)%nat ->
             earlier.1 <> record.1) by (intros j earlier _ Hlt; lia).
  split_conj; [reflexivity|exact Hrecord|exact Hwf|exact Hfirst|].
  exact (proj1 (proj2 (listed_id_resolves Sample.str_exn Sample.str_other
                         d 0%nat record eq_refl Hrecord Hwf Hfirst))).
Defined.
